(** * The miniaudio device shim (src/vendor/miniaudio.c)

    A shallow embedding of the five C functions of the shim and of the
    [zig_ma_device_config] blob.  Memory is byte-addressed blocks; the
    vendored audio engine (miniaudio.h) and the C allocator are not part of
    the file and enter as the operations of a [Platform]. *)

From Stdlib Require Import ZArith Lia.
From Stdlib.Strings Require Import Byte.
From stdpp Require Import base option list gmap.

Local Open Scope Z_scope.

(** ** Bytes and integers in memory *)

Module Bytes.

Definition byte_of_Z (z : Z) : byte :=
  default x00 (Byte.of_N (Z.to_N (z mod 256))).

Definition Z_of_byte (b : byte) : Z := Z.of_N (Byte.to_N b).

(** The [n] low-order bytes of [v], least significant first. *)
Fixpoint le_bytes (n : nat) (v : Z) : list byte :=
  match n with
  | O => []
  | S n' => byte_of_Z v :: le_bytes n' (v / 256)
  end.

Fixpoint le_value (bs : list byte) : Z :=
  match bs with
  | [] => 0
  | b :: bs' => Z_of_byte b + 256 * le_value bs'
  end.

(** An [n]-byte unsigned object representation in either byte order. *)
Definition encode_int (big_endian : bool) (n : nat) (v : Z) : list byte :=
  if big_endian then reverse (le_bytes n v) else le_bytes n v.

Definition decode_int (big_endian : bool) (bs : list byte) : Z :=
  le_value (if big_endian then reverse bs else bs).

(** [memset(buf, c, n)] and [memcpy(dst, src, n)] on a buffer given by its
    bytes.  Neither checks [n] against the destination: a count larger than
    the destination runs past its end, which shows as a longer list. *)
Definition memset (buf : list byte) (c : byte) (n : nat) : list byte :=
  replicate n c ++ drop n buf.

Definition memcpy (dst src : list byte) (n : nat) : list byte :=
  take n src ++ drop n dst.

(** Access to the member at byte offset [off] of a struct held in [buf]. *)
Definition load_bytes (buf : list byte) (off n : nat) : list byte :=
  take n (drop off buf).

Definition store_bytes (buf : list byte) (off : nat) (bs : list byte) : list byte :=
  take off buf ++ bs ++ drop (off + length bs) buf.

End Bytes.

Import Bytes.

(** ** Memory, the platform and the target ABI *)

(** A block of memory: [blk_heap] tells whether it came from [malloc] (only
    such a block may be passed to [free]); the caller's config blob lives in
    a block that did not. *)
Record block := Block { blk_heap : bool; blk_bytes : list byte }.

(** What the shim needs to know about the target: byte order, pointer
    width, the size of the two native structs and the offsets of the members
    it touches, and the values of three enumerators of miniaudio.h.  All of
    them come from the vendored header, so they are parameters here. *)
Record abi := Abi {
  big_endian : bool;
  sizeof_pointer : nat;
  sizeof_ma_device_config : nat;
  offsetof_deviceType : nat;
  offsetof_sampleRate : nat;
  offsetof_dataCallback : nat;
  offsetof_pUserData : nat;
  offsetof_playback_format : nat;
  offsetof_playback_channels : nat;
  sizeof_ma_device : nat;
  offsetof_device_sampleRate : nat;
  MA_SUCCESS : Z;
  ma_device_type_playback : Z;
  ma_format_f32 : Z
}.

(** [unsigned char data[512]]: the struct has one member of 512 bytes. *)
Definition sizeof_zig_ma_device_config : nat := 512.

(** The [_Static_assert] of line 11, evaluated by the compiler. *)
Definition static_assert_ok (A : abi) : bool :=
  (sizeof_ma_device_config A <=? sizeof_zig_ma_device_config)%nat.

(** Two members [a, a+n) and [b, b+m) of a struct do not overlap. *)
Definition disjoint_members (a n b m : nat) : bool :=
  ((a + n <=? b) || (b + m <=? a))%nat.

Fixpoint members_ok (size : nat) (ms : list (nat * nat)) : bool :=
  match ms with
  | [] => true
  | (a, n) :: ms' =>
      (a + n <=? size)%nat
      && forallb (fun '(b, m) => disjoint_members a n b m) ms'
      && members_ok size ms'
  end.

(** The members named by the shim are distinct members of the native
    structs, in bounds and pairwise disjoint, and the two enumerators it
    stores are values of a four-byte enum. *)
Definition abi_ok (A : abi) : bool :=
  members_ok (sizeof_ma_device_config A)
    [ (offsetof_deviceType A, 4%nat);
      (offsetof_sampleRate A, 4%nat);
      (offsetof_dataCallback A, sizeof_pointer A);
      (offsetof_pUserData A, sizeof_pointer A);
      (offsetof_playback_format A, 4%nat);
      (offsetof_playback_channels A, 4%nat) ]
  && (offsetof_device_sampleRate A + 4 <=? sizeof_ma_device A)%nat
  && (0 <=? ma_device_type_playback A) && (ma_device_type_playback A <? 2 ^ 32)
  && (0 <=? ma_format_f32 A) && (ma_format_f32 A <? 2 ^ 32).

(** The C library's allocator and the audio engine.  [world] is whatever
    state they keep outside the program's memory (the allocator's
    bookkeeping, the audio backend).  An engine call returns [None] when
    its behaviour is undefined. *)
Class Platform := {
  world : Type;
  (** [malloc n]: the address returned ([0] for a null pointer) and the
      indeterminate initial bytes of the new block. *)
  malloc : nat -> gmap Z block -> world -> Z * list byte * world;
  (** [ma_device_config_init deviceType] returns a struct by value. *)
  ma_device_config_init : Z -> list byte;
  (** [ma_device_init pContext pConfig pDevice] returns an [ma_result]. *)
  ma_device_init :
    Z -> Z -> Z -> gmap Z block -> world -> option (Z * gmap Z block * world);
  (** [ma_device_start pDevice] returns an [ma_result]. *)
  ma_device_start :
    Z -> gmap Z block -> world -> option (Z * gmap Z block * world);
  (** [ma_device_uninit pDevice] returns nothing. *)
  ma_device_uninit :
    Z -> gmap Z block -> world -> option (gmap Z block * world)
}.

(** Calls that leave the shim, in program order. *)
Inductive event :=
  | EvMalloc (size : nat) (ret : Z)
  | EvFree (p : Z)
  | EvNativeInit (pContext pConfig pDevice : Z)
  | EvNativeStart (pDevice : Z)
  | EvNativeUninit (pDevice : Z).

Definition NULL : Z := 0.

(** ** The shim *)

(** The state a call runs in: the program's memory, the state of the
    allocator and the engine, and the calls made so far. *)
Record machine (W : Type) := State {
  mem : gmap Z block;
  env : W;
  trace : list event
}.

Arguments State {W} mem env trace.
Arguments mem {W} m.
Arguments env {W} m.
Arguments trace {W} m.

Definition state {P : Platform} : Type := machine world.

Section Shim.

Context (A : abi) {P : Platform}.

(** A C function with effects: [None] is undefined behaviour. *)
Definition M (X : Type) : Type := state -> option (X * state).

#[local] Instance M_ret : MRet M := fun X x s => Some (x, s).

#[local] Instance M_bind : MBind M := fun X Y k m s =>
  match m s with
  | Some (x, s') => k x s'
  | None => None
  end.

(** *** Members of the native structs *)

Definition get_int (n : nat) (buf : list byte) (off : nat) : Z :=
  decode_int (big_endian A) (load_bytes buf off n).

Definition set_int (n : nat) (buf : list byte) (off : nat) (v : Z) : list byte :=
  store_bytes buf off (encode_int (big_endian A) n v).

(** [unsigned int], [ma_uint32] and the enums are four bytes wide. *)
Definition get_u32 : list byte -> nat -> Z := get_int 4.
Definition set_u32 : list byte -> nat -> Z -> list byte := set_int 4.
Definition get_ptr : list byte -> nat -> Z := get_int (sizeof_pointer A).
Definition set_ptr : list byte -> nat -> Z -> list byte := set_int (sizeof_pointer A).

(** The members of the native configuration as read through
    [(const ma_device_config* )config]. *)
Definition cfg_deviceType (blob : list byte) : Z := get_u32 blob (offsetof_deviceType A).
Definition cfg_sampleRate (blob : list byte) : Z := get_u32 blob (offsetof_sampleRate A).
Definition cfg_dataCallback (blob : list byte) : Z := get_ptr blob (offsetof_dataCallback A).
Definition cfg_pUserData (blob : list byte) : Z := get_ptr blob (offsetof_pUserData A).
Definition cfg_playback_format (blob : list byte) : Z := get_u32 blob (offsetof_playback_format A).
Definition cfg_playback_channels (blob : list byte) : Z := get_u32 blob (offsetof_playback_channels A).

(** *** zig_ma_device_config_playback (lines 13-24)

    [result] is the local variable of line 14 as it is before the [memset]:
    512 indeterminate bytes. *)
Definition zig_ma_device_config_playback
    (result : list byte) (sample_rate callback user_data : Z) : list byte :=
  let result := memset result x00 sizeof_zig_ma_device_config in
  let cfg := ma_device_config_init (ma_device_type_playback A) in
  let cfg := set_u32 cfg (offsetof_playback_format A) (ma_format_f32 A) in
  let cfg := set_u32 cfg (offsetof_playback_channels A) 1 in
  let cfg := set_u32 cfg (offsetof_sampleRate A) sample_rate in
  let cfg := set_ptr cfg (offsetof_dataCallback A) callback in
  let cfg := set_ptr cfg (offsetof_pUserData A) user_data in
  memcpy result cfg (sizeof_ma_device_config A).

(** The native configuration as it is just before the [memcpy] of line 22. *)
Definition cfg_before_copy (sample_rate callback user_data : Z) : list byte :=
  set_ptr
    (set_ptr
       (set_u32
          (set_u32
             (set_u32 (ma_device_config_init (ma_device_type_playback A))
                (offsetof_playback_format A) (ma_format_f32 A))
             (offsetof_playback_channels A) 1)
          (offsetof_sampleRate A) sample_rate)
       (offsetof_dataCallback A) callback)
    (offsetof_pUserData A) user_data.

(** *** Calls into the C library and the engine *)

Definition free (p : Z) (m : gmap Z block) : option (gmap Z block) :=
  if decide (p = NULL) then Some m
  else match m !! p with
       | Some (Block true _) => Some (delete p m)
       | _ => None
       end.

Definition call_malloc (n : nat) : M Z := fun s =>
  let '(p, init, w) := malloc n (mem s) (env s) in
  Some (p, {| mem := if decide (p = NULL) then mem s
                     else <[p := Block true init]> (mem s);
              env := w;
              trace := trace s ++ [EvMalloc n p] |}).

Definition call_free (p : Z) : M unit := fun s =>
  match free p (mem s) with
  | Some m => Some (tt, {| mem := m; env := env s; trace := trace s ++ [EvFree p] |})
  | None => None
  end.

Definition call_ma_device_init (pContext pConfig pDevice : Z) : M Z := fun s =>
  match ma_device_init pContext pConfig pDevice (mem s) (env s) with
  | Some (r, m, w) =>
      Some (r, {| mem := m; env := w;
                  trace := trace s ++ [EvNativeInit pContext pConfig pDevice] |})
  | None => None
  end.

Definition call_ma_device_start (pDevice : Z) : M Z := fun s =>
  match ma_device_start pDevice (mem s) (env s) with
  | Some (r, m, w) =>
      Some (r, {| mem := m; env := w; trace := trace s ++ [EvNativeStart pDevice] |})
  | None => None
  end.

Definition call_ma_device_uninit (pDevice : Z) : M unit := fun s =>
  match ma_device_uninit pDevice (mem s) (env s) with
  | Some (m, w) =>
      Some (tt, {| mem := m; env := w; trace := trace s ++ [EvNativeUninit pDevice] |})
  | None => None
  end.

(** Reading an [unsigned int] member through a pointer.  A null pointer
    designates no object, nor does an address without a block. *)
Definition load_u32 (p : Z) (off : nat) : M Z := fun s =>
  if decide (p = NULL) then None
  else match mem s !! p with
       | Some b =>
           if decide (off + 4 <= length (blk_bytes b))%nat
           then Some (get_u32 (blk_bytes b) off, s)
           else None
       | None => None
       end.

(** *** zig_ma_device_init (lines 26-34) *)
Definition zig_ma_device_init (config : Z) : M Z :=
  device ← call_malloc (sizeof_ma_device A);
  if decide (device = NULL) then mret NULL
  else
    r ← call_ma_device_init NULL config device;
    if decide (r <> MA_SUCCESS A) then
      call_free device;; mret NULL
    else mret device.

(** *** zig_ma_device_start (lines 36-38) *)
Definition zig_ma_device_start (device : Z) : M unit :=
  call_ma_device_start device;; mret tt.

(** *** zig_ma_device_get_sample_rate (lines 40-42) *)
Definition zig_ma_device_get_sample_rate (device : Z) : M Z :=
  load_u32 device (offsetof_device_sampleRate A).

(** *** zig_ma_device_uninit (lines 44-49) *)
Definition zig_ma_device_uninit (device : Z) : M unit :=
  if decide (device <> NULL) then
    call_ma_device_uninit device;; call_free device
  else mret tt.

End Shim.


(** ** What the shim relies on from the C library and the engine

    Each is a property of operations that live outside the file; the
    theorems below name the ones they use. *)

Section Contracts.

Context (A : abi) {P : Platform}.

(** [ma_device_config_init] returns a whole [ma_device_config] whose
    [deviceType] member is its argument. *)
Definition config_init_contract : Prop :=
  forall t : Z,
    length (ma_device_config_init t) = sizeof_ma_device_config A
    /\ (0 <= t < 2 ^ 32 -> cfg_deviceType A (ma_device_config_init t) = t).

(** [malloc] returns a null pointer or the address of a new block of the
    size asked for, distinct from every live block. *)
Definition malloc_contract : Prop :=
  forall n m w p init w',
    malloc n m w = (p, init, w') ->
    p <> NULL -> m !! p = None /\ length init = n.

(** [ma_device_init] takes a [const ma_device_config*] and an [ma_device*]:
    it writes through [pDevice] only, and leaves that block allocated. *)
Definition ma_device_init_contract : Prop :=
  forall ctx c d m w r m' w',
    ma_device_init ctx c d m w = Some (r, m', w') ->
    (forall a, a <> d -> m' !! a = m !! a)
    /\ (forall b, m !! d = Some b ->
          exists bytes, m' !! d = Some (Block (blk_heap b) bytes)
                        /\ length bytes = length (blk_bytes b)).

(** Modelled from the spec: the outcome of a successful [ma_device_init],
    which is not part of the file.  The device record then holds, in its
    [sampleRate] member, the rate negotiated with the backend for the rate
    the configuration asked for; that rate is positive.  [negotiated w req]
    is the rate the backend in state [w] settled on for a request of [req];
    the backend honours the request exactly when it is [req] itself. *)
Definition ma_device_init_negotiates (negotiated : world -> Z -> Z) : Prop :=
  forall c d m w m' w' bc,
    ma_device_init NULL c d m w = Some (MA_SUCCESS A, m', w') ->
    m !! c = Some bc ->
    exists bd,
      m' !! d = Some bd
      /\ (offsetof_device_sampleRate A + 4 <= length (blk_bytes bd))%nat
      /\ get_u32 A (blk_bytes bd) (offsetof_device_sampleRate A)
         = negotiated w' (cfg_sampleRate A (blk_bytes bc))
      /\ 0 < negotiated w' (cfg_sampleRate A (blk_bytes bc)).

End Contracts.

Section LifecycleContracts.

Context {P : Platform}.

(** [ma_device_start] and [ma_device_uninit] work on the device record they
    are given and on the backend: they write through [pDevice] only, and
    they neither allocate nor release the block it points to (releasing it
    is left to the caller's [free]). *)
Definition writes_device_only
    (m m' : gmap Z block) (pDevice : Z) : Prop :=
  (forall a, a <> pDevice -> m' !! a = m !! a)
  /\ (m !! pDevice = None -> m' !! pDevice = None)
  /\ (forall b, m !! pDevice = Some b ->
        exists bytes, m' !! pDevice = Some (Block (blk_heap b) bytes)).

Definition ma_device_start_contract : Prop :=
  forall d m w r m' w',
    ma_device_start d m w = Some (r, m', w') -> writes_device_only m m' d.

Definition ma_device_uninit_contract : Prop :=
  forall d m w m' w',
    ma_device_uninit d m w = Some (m', w') -> writes_device_only m m' d.

End LifecycleContracts.

Section Liveness.

Context (A : abi) {P : Platform}.

(** Modelled from the spec: what [ma_device_start], which is not part of
    the file, does to the rate of the device it is given.  The spec has
    [get_sample_rate] return the negotiated rate on every still-live
    handle, started or not: starting a device leaves the [sampleRate]
    member of its record readable and unchanged. *)
Definition ma_device_start_keeps_rate : Prop :=
  forall d m w r m' w' b,
    ma_device_start d m w = Some (r, m', w') ->
    m !! d = Some b ->
    (offsetof_device_sampleRate A + 4 <= length (blk_bytes b))%nat ->
    exists b',
      m' !! d = Some b'
      /\ (offsetof_device_sampleRate A + 4 <= length (blk_bytes b'))%nat
      /\ get_u32 A (blk_bytes b') (offsetof_device_sampleRate A)
         = get_u32 A (blk_bytes b) (offsetof_device_sampleRate A).

(** The states in which a handle [h] obtained in state [s] is still live:
    those reached from [s] by calls of the shim - on [h] or on other
    devices - other than [zig_ma_device_uninit] on [h] itself. *)
Inductive still_live (h : Z) (s : state) : state -> Prop :=
  | live_now : still_live h s s
  | live_start s2 device u s3 :
      still_live h s s2 ->
      zig_ma_device_start device s2 = Some (u, s3) ->
      still_live h s s3
  | live_get_sample_rate s2 device v s3 :
      still_live h s s2 ->
      zig_ma_device_get_sample_rate A device s2 = Some (v, s3) ->
      still_live h s s3
  | live_init s2 config h' s3 :
      still_live h s s2 ->
      zig_ma_device_init A config s2 = Some (h', s3) ->
      still_live h s s3
  | live_uninit s2 device u s3 :
      still_live h s s2 ->
      device <> h ->
      zig_ma_device_uninit device s2 = Some (u, s3) ->
      still_live h s s3.

End Liveness.

(** A byte offset lies in the member at [off] of [n] bytes. *)
Definition in_member (off n i : nat) : Prop := (off <= i < off + n)%nat.

(** ** A concrete target and a simulated engine

    Used to run the shim on concrete inputs.  The target is a 64-bit
    little-endian one; the simulated engine has one optional playback
    device and an allocator that hands out the address [sim_next]. *)

Definition example_abi : abi := {|
  big_endian := false;
  sizeof_pointer := 8;
  sizeof_ma_device_config := 48;
  offsetof_deviceType := 0;
  offsetof_sampleRate := 4;
  offsetof_dataCallback := 8;
  offsetof_pUserData := 16;
  offsetof_playback_format := 32;
  offsetof_playback_channels := 36;
  sizeof_ma_device := 24;
  offsetof_device_sampleRate := 12;
  MA_SUCCESS := 0;
  ma_device_type_playback := 1;
  ma_format_f32 := 5
|}.

Record sim_world := SimWorld {
  sim_next : Z;            (* what malloc returns next; 0: out of memory *)
  sim_has_device : bool;   (* is there a playback device *)
  sim_native_rate : Z;     (* the rate the backend picks when asked for 0 *)
  sim_started : bool
}.

Definition sim_error (A : abi) : Z := MA_SUCCESS A - 1.

Definition sim_malloc (n : nat) (m : gmap Z block) (w : sim_world)
  : Z * list byte * sim_world :=
  let p := sim_next w in
  if decide (p = 0) then (0, [], w)
  else match m !! p with
       | None => (p, replicate n xcd,
                  SimWorld (p + Z.of_nat n) (sim_has_device w)
                           (sim_native_rate w) (sim_started w))
       | Some _ => (0, [], w)
       end.

Definition sim_config_init (A : abi) (deviceType : Z) : list byte :=
  set_u32 A (replicate (sizeof_ma_device_config A) x00)
    (offsetof_deviceType A) deviceType.

(** The rate the simulated backend settles on: the rate asked for, or its
    own when the configuration leaves the rate at 0. *)
Definition sim_negotiated (w : sim_world) (req : Z) : Z :=
  if decide (req = 0) then sim_native_rate w else req.

Definition sim_init (A : abi) (pContext pConfig pDevice : Z)
    (m : gmap Z block) (w : sim_world)
  : option (Z * gmap Z block * sim_world) :=
  match m !! pConfig, m !! pDevice with
  | Some bc, Some bd =>
      if (offsetof_device_sampleRate A + 4 <=? length (blk_bytes bd))%nat then
        let rate := sim_negotiated w (cfg_sampleRate A (blk_bytes bc)) in
        if sim_has_device w && (0 <? rate) && (rate <? 2 ^ 32) then
          let dev := set_u32 A (replicate (length (blk_bytes bd)) x00)
                       (offsetof_device_sampleRate A) rate in
          Some (MA_SUCCESS A, <[pDevice := Block (blk_heap bd) dev]> m, w)
        else Some (sim_error A, m, w)
      else None
  | _, _ => None
  end.

Definition sim_start (A : abi) (pDevice : Z) (m : gmap Z block) (w : sim_world)
  : option (Z * gmap Z block * sim_world) :=
  match m !! pDevice with
  | Some _ =>
      if sim_has_device w then
        Some (MA_SUCCESS A, m,
              SimWorld (sim_next w) true (sim_native_rate w) true)
      else Some (sim_error A, m, w)
  | None => None
  end.

Definition sim_uninit (pDevice : Z) (m : gmap Z block) (w : sim_world)
  : option (gmap Z block * sim_world) :=
  match m !! pDevice with
  | Some _ =>
      Some (m, SimWorld (sim_next w) (sim_has_device w) (sim_native_rate w) false)
  | None => None
  end.

Definition sim_platform (A : abi) : Platform := {|
  world := sim_world;
  malloc := sim_malloc;
  ma_device_config_init := sim_config_init A;
  ma_device_init := sim_init A;
  ma_device_start := sim_start A;
  ma_device_uninit := sim_uninit
|}.

Definition junk512 : list byte := replicate 512 xa5.

Definition example_blob : list byte :=
  zig_ma_device_config_playback (P := sim_platform example_abi)
    example_abi junk512 48000 4198400 8392704.

Definition sim_state (m : gmap Z block) (w : sim_world) (t : list event)
  : state (P := sim_platform example_abi) :=
  State m w t.

Definition example_state (w : sim_world) : state (P := sim_platform example_abi) :=
  sim_state {[ 4096 := Block false example_blob ]} w [].

(** The device record the simulated engine writes for a rate of 48000. *)
Definition example_device : list byte :=
  set_u32 example_abi (replicate 24 x00) 12 48000.

(** A state in which 65536 is a live handle. *)
Definition device_state (w : sim_world) : state (P := sim_platform example_abi) :=
  sim_state (<[65536 := Block true example_device]>
               {[ 4096 := Block false example_blob ]})
    w [EvMalloc 24 65536; EvNativeInit 0 4096 65536].

Definition world_ok : sim_world := SimWorld 65536 true 44100 false.
Definition world_no_memory : sim_world := SimWorld 0 true 44100 false.
Definition world_no_device : sim_world := SimWorld 65536 false 44100 false.

(** States along the life of the handle 65536 on the simulated engine. *)
Definition world_after_init : sim_world := SimWorld 65560 true 44100 false.

Definition started_state : state (P := sim_platform example_abi) :=
  sim_state (mem (device_state world_after_init))
    (SimWorld 65560 true 44100 true)
    (trace (device_state world_after_init) ++ [EvNativeStart 65536]).

Definition torn_down_state : state (P := sim_platform example_abi) :=
  sim_state (delete 65536 (mem (device_state world_ok))) world_ok
    (trace (device_state world_ok) ++ [EvNativeUninit 65536; EvFree 65536]).

Definition two_devices_state : state (P := sim_platform example_abi) :=
  sim_state (<[65560 := Block true example_device]>
               (mem (device_state world_after_init)))
    (SimWorld 65584 true 44100 false)
    (trace (device_state world_after_init)
     ++ [EvMalloc 24 65560; EvNativeInit 0 4096 65560]).



(** ** Facts about bytes and buffers *)

Section BytesFacts.

Lemma Z_of_byte_of_Z z : Z_of_byte (byte_of_Z z) = z mod 256.
Proof.
  unfold Z_of_byte, byte_of_Z.
  assert (Hr : 0 <= z mod 256 < 256) by (apply Z.mod_pos_bound; lia).
  destruct (Byte.of_N (Z.to_N (z mod 256))) as [b|] eqn:E.
  - apply Byte.to_of_N in E. simpl. rewrite E. lia.
  - apply Byte.of_N_None_iff in E. lia.
Qed.

Lemma Z_of_byte_range b : 0 <= Z_of_byte b < 256.
Proof.
  unfold Z_of_byte. pose proof (Byte.to_N_bounded b). lia.
Qed.

Lemma length_le_bytes n v : length (le_bytes n v) = n.
Proof. revert v. induction n as [|n IH]; intros v; simpl; [done | by rewrite IH]. Qed.

Lemma le_value_le_bytes n v :
  le_value (le_bytes n v) = v mod 2 ^ (8 * Z.of_nat n).
Proof.
  revert v. induction n as [|n IH]; intros v.
  - simpl. by rewrite Z.mod_1_r.
  - cbn [le_bytes le_value]. rewrite Z_of_byte_of_Z, IH.
    replace (8 * Z.of_nat (S n)) with (8 + 8 * Z.of_nat n) by lia.
    rewrite Z.pow_add_r by lia. change (2 ^ 8) with 256.
    rewrite Z.rem_mul_r by lia. reflexivity.
Qed.

Lemma length_encode_int be n v : length (encode_int be n v) = n.
Proof.
  unfold encode_int. destruct be; [rewrite length_reverse|]; apply length_le_bytes.
Qed.

Lemma decode_encode_int be n v :
  decode_int be (encode_int be n v) = v mod 2 ^ (8 * Z.of_nat n).
Proof.
  unfold decode_int, encode_int. destruct be.
  - rewrite reverse_involutive. apply le_value_le_bytes.
  - apply le_value_le_bytes.
Qed.

Lemma length_memset buf c n :
  (n <= length buf)%nat -> length (memset buf c n) = length buf.
Proof.
  intros H. unfold memset. rewrite length_app, length_replicate, length_drop. lia.
Qed.

Lemma length_memcpy dst src n :
  (n <= length src)%nat ->
  length (memcpy dst src n) = Nat.max n (length dst).
Proof.
  intros H. unfold memcpy. rewrite length_app, length_take, length_drop. lia.
Qed.

Lemma length_store_bytes buf off bs :
  (off + length bs <= length buf)%nat ->
  length (store_bytes buf off bs) = length buf.
Proof.
  intros H. unfold store_bytes.
  rewrite !length_app, length_take, length_drop. lia.
Qed.

Lemma load_store_same buf off bs :
  (off + length bs <= length buf)%nat ->
  load_bytes (store_bytes buf off bs) off (length bs) = bs.
Proof.
  intros H. unfold load_bytes, store_bytes.
  rewrite drop_app_length' by (rewrite length_take; lia).
  by rewrite take_app_length.
Qed.

Lemma load_store_other buf off bs off' n :
  (off + length bs <= length buf)%nat ->
  (off' + n <= off \/ off + length bs <= off')%nat ->
  load_bytes (store_bytes buf off bs) off' n = load_bytes buf off' n.
Proof.
  intros Hin Hdisj. unfold load_bytes, store_bytes.
  apply list_eq. intros i.
  destruct (decide (i < n)%nat) as [Hi|Hi].
  - rewrite !lookup_take_lt, !lookup_drop by done.
    destruct (decide (off' + i < off)%nat).
    + rewrite lookup_app_l by (rewrite length_take; lia).
      by rewrite lookup_take_lt.
    + rewrite lookup_app_r by (rewrite length_take; lia).
      rewrite length_take.
      rewrite lookup_app_r by lia.
      rewrite lookup_drop. f_equal. lia.
  - by rewrite !lookup_take_ge by lia.
Qed.

Lemma load_memcpy dst src n off k :
  (n <= length src)%nat ->
  (off + k <= n)%nat ->
  load_bytes (memcpy dst src n) off k = load_bytes src off k.
Proof.
  intros Hn H. unfold load_bytes, memcpy.
  apply list_eq. intros i.
  destruct (decide (i < k)%nat) as [Hi|Hi].
  - rewrite !lookup_take_lt, !lookup_drop by done.
    rewrite lookup_app_l by (rewrite length_take; lia).
    apply lookup_take_lt. lia.
  - by rewrite !lookup_take_ge by lia.
Qed.

Lemma lookup_memcpy_beyond dst src n i :
  (n <= length src)%nat ->
  (n <= i)%nat ->
  memcpy dst src n !! i = dst !! i.
Proof.
  intros Hn Hi. unfold memcpy.
  rewrite lookup_app_r by (rewrite length_take; lia).
  rewrite length_take, lookup_drop. f_equal. lia.
Qed.

Lemma lookup_memset buf c n i :
  (i < n)%nat -> memset buf c n !! i = Some c.
Proof.
  intros Hi. unfold memset.
  rewrite lookup_app_l by (rewrite length_replicate; lia).
  by apply lookup_replicate_2.
Qed.

Lemma memset_all buf c :
  memset buf c (length buf) = replicate (length buf) c.
Proof.
  unfold memset. rewrite drop_all. apply app_nil_r.
Qed.

End BytesFacts.

(** ** Members of a struct: reading back what was stored *)

Section Members.

Context (A : abi).

Lemma length_set_int n buf off v :
  (off + n <= length buf)%nat -> length (set_int A n buf off v) = length buf.
Proof.
  intros H. unfold set_int. apply length_store_bytes.
  by rewrite length_encode_int.
Qed.

Lemma length_set_int_eq n buf off v N :
  length buf = N -> (off + n <= N)%nat -> length (set_int A n buf off v) = N.
Proof. intros <- H. by apply length_set_int. Qed.

Lemma get_set_int_same n buf off v :
  (off + n <= length buf)%nat ->
  get_int A n (set_int A n buf off v) off = v mod 2 ^ (8 * Z.of_nat n).
Proof.
  intros H. unfold get_int, set_int.
  rewrite <- (length_encode_int (big_endian A) n v) at 2.
  rewrite load_store_same by (by rewrite length_encode_int).
  apply decode_encode_int.
Qed.

Lemma get_set_int_other n k buf off off' v :
  (off + n <= length buf)%nat ->
  disjoint_members off n off' k = true \/ disjoint_members off' k off n = true ->
  get_int A k (set_int A n buf off v) off' = get_int A k buf off'.
Proof.
  intros H Hd. unfold get_int, set_int.
  rewrite load_store_other; [done | by rewrite length_encode_int |].
  rewrite length_encode_int. unfold disjoint_members in Hd.
  rewrite !orb_true_iff, !Nat.leb_le in Hd. lia.
Qed.

Lemma get_set_int_same_at N n buf off v :
  length buf = N -> (off + n <= N)%nat ->
  0 <= v < 2 ^ (8 * Z.of_nat n) ->
  get_int A n (set_int A n buf off v) off = v.
Proof.
  intros <- H Hv. rewrite get_set_int_same by done. by apply Z.mod_small.
Qed.

Lemma get_set_int_other_at N n k buf off off' v :
  length buf = N -> (off + n <= N)%nat ->
  disjoint_members off n off' k = true \/ disjoint_members off' k off n = true ->
  get_int A k (set_int A n buf off v) off' = get_int A k buf off'.
Proof. intros <- H Hd. by apply get_set_int_other. Qed.

Lemma get_int_memcpy k dst src n off :
  (n <= length src)%nat -> (off + k <= n)%nat ->
  get_int A k (memcpy dst src n) off = get_int A k src off.
Proof.
  intros Hn Hk. unfold get_int. by rewrite load_memcpy.
Qed.

End Members.

(** The facts packed in [abi_ok], as inequalities. *)
Ltac abi_facts H :=
  unfold abi_ok, members_ok in H; cbn [forallb] in H;
  repeat (rewrite ?andb_true_iff, ?Nat.leb_le, ?Z.leb_le, ?Z.ltb_lt in H);
  destruct_and?.

Lemma abi_ok_example : abi_ok example_abi = true.
Proof. reflexivity. Qed.

Lemma sim_config_init_contract A :
  abi_ok A = true -> config_init_contract (P := sim_platform A) A.
Proof.
  intros Hok t. abi_facts Hok.
  cbn [ma_device_config_init sim_platform].
  unfold sim_config_init, set_u32, cfg_deviceType, get_u32. split.
  - rewrite length_set_int; rewrite length_replicate; [done | lia].
  - intros Ht. rewrite get_set_int_same by (rewrite length_replicate; lia).
    apply Z.mod_small. change (8 * Z.of_nat 4) with 32. lia.
Qed.

(** ** The configuration blob *)

Section ConfigBlob.

Context (A : abi) {P : Platform}.

Lemma zig_ma_device_config_playback_eq result sample_rate callback user_data :
  zig_ma_device_config_playback A result sample_rate callback user_data
  = memcpy (memset result x00 sizeof_zig_ma_device_config)
      (cfg_before_copy A sample_rate callback user_data)
      (sizeof_ma_device_config A).
Proof. reflexivity. Qed.

Lemma length_cfg_before_copy sample_rate callback user_data :
  abi_ok A = true ->
  config_init_contract A ->
  length (cfg_before_copy A sample_rate callback user_data)
  = sizeof_ma_device_config A.
Proof.
  intros Hok Hinit. abi_facts Hok.
  destruct (Hinit (ma_device_type_playback A)) as [Hlen _].
  unfold cfg_before_copy, set_ptr, set_u32.
  repeat (apply length_set_int_eq; [| lia]). exact Hlen.
Qed.

Lemma length_zig_ma_device_config_playback result sample_rate callback user_data :
  abi_ok A = true ->
  config_init_contract A ->
  length result = sizeof_zig_ma_device_config ->
  length (zig_ma_device_config_playback A result sample_rate callback user_data)
  = Nat.max (sizeof_ma_device_config A) sizeof_zig_ma_device_config.
Proof.
  intros Hok Hinit Hres.
  rewrite zig_ma_device_config_playback_eq.
  rewrite length_memcpy by (by rewrite length_cfg_before_copy).
  rewrite length_memset by (by rewrite Hres). by rewrite Hres.
Qed.

End ConfigBlob.

Section ConfigBlobFields.

Context (A : abi) {P : Platform}.

Local Ltac cfg_length Hlen :=
  repeat (apply length_set_int_eq; [| lia]); exact Hlen.

Local Ltac skip_store Hlen :=
  rewrite (get_set_int_other_at A (sizeof_ma_device_config A));
  [ | cfg_length Hlen | lia | by auto ].

Local Ltac hit_store Hlen :=
  rewrite (get_set_int_same_at A (sizeof_ma_device_config A));
  [ | cfg_length Hlen | lia | first [ done | change (8 * Z.of_nat 4) with 32; lia ] ].

(** The rate a reader of the blob finds is the rate the blob was built for. *)
Lemma cfg_sampleRate_playback
    (result : list byte) (sample_rate callback user_data : Z) :
  abi_ok A = true ->
  config_init_contract A ->
  0 <= sample_rate < 2 ^ 32 ->
  cfg_sampleRate A
    (zig_ma_device_config_playback A result sample_rate callback user_data)
  = sample_rate.
Proof.
  intros Hok Hinit Hsr.
  pose proof (length_cfg_before_copy A sample_rate callback user_data Hok Hinit) as Hcfg.
  destruct (Hinit (ma_device_type_playback A)) as [Hlen _].
  abi_facts Hok.
  rewrite zig_ma_device_config_playback_eq. unfold cfg_sampleRate, get_u32.
  rewrite get_int_memcpy by lia.
  unfold cfg_before_copy, set_ptr, set_u32.
  do 2 skip_store Hlen. by hit_store Hlen.
Qed.

(** C2: every call of [zig_ma_device_config_playback] returns a blob of 512
    bytes in which a reader of the native configuration finds device kind
    playback, sample format f32, one channel, the given sample rate, the
    given callback and the given user data, and in which every byte after
    the copied native configuration is zero. *)
Theorem zig_ma_device_config_playback_fields
    (result : list byte) (sample_rate callback user_data : Z) :
  abi_ok A = true ->
  static_assert_ok A = true ->
  config_init_contract A ->
  length result = sizeof_zig_ma_device_config ->
  0 <= sample_rate < 2 ^ 32 ->
  0 <= callback < 2 ^ (8 * Z.of_nat (sizeof_pointer A)) ->
  0 <= user_data < 2 ^ (8 * Z.of_nat (sizeof_pointer A)) ->
  let blob := zig_ma_device_config_playback A result sample_rate callback user_data in
  length blob = sizeof_zig_ma_device_config
  /\ cfg_deviceType A blob = ma_device_type_playback A
  /\ cfg_playback_format A blob = ma_format_f32 A
  /\ cfg_playback_channels A blob = 1
  /\ cfg_sampleRate A blob = sample_rate
  /\ cfg_dataCallback A blob = callback
  /\ cfg_pUserData A blob = user_data
  /\ (forall i : nat,
        (sizeof_ma_device_config A <= i < sizeof_zig_ma_device_config)%nat ->
        blob !! i = Some x00).
Proof.
  intros Hok Hsa Hinit Hres Hsr Hcb Hud blob.
  pose proof (length_cfg_before_copy A sample_rate callback user_data Hok Hinit) as Hcfg.
  pose proof (length_zig_ma_device_config_playback A result sample_rate
                callback user_data Hok Hinit Hres) as Hblob.
  unfold static_assert_ok in Hsa. apply Nat.leb_le in Hsa.
  destruct (Hinit (ma_device_type_playback A)) as [Hlen Htype].
  abi_facts Hok.
  subst blob. rewrite zig_ma_device_config_playback_eq.
  unfold cfg_deviceType, cfg_playback_format, cfg_playback_channels,
    cfg_sampleRate, cfg_dataCallback, cfg_pUserData, get_u32, get_ptr.
  rewrite !get_int_memcpy by lia.
  repeat split.
  - rewrite <- zig_ma_device_config_playback_eq, Hblob. lia.
  - unfold cfg_before_copy, set_ptr, set_u32.
    do 5 skip_store Hlen. apply Htype. lia.
  - unfold cfg_before_copy, set_ptr, set_u32.
    do 4 skip_store Hlen. by hit_store Hlen.
  - unfold cfg_before_copy, set_ptr, set_u32.
    do 3 skip_store Hlen. by hit_store Hlen.
  - unfold cfg_before_copy, set_ptr, set_u32.
    do 2 skip_store Hlen. by hit_store Hlen.
  - unfold cfg_before_copy, set_ptr, set_u32.
    skip_store Hlen. by hit_store Hlen.
  - unfold cfg_before_copy, set_ptr, set_u32.
    by hit_store Hlen.
  - intros i Hi. rewrite lookup_memcpy_beyond by lia.
    apply lookup_memset. lia.
Qed.

End ConfigBlobFields.

Lemma zig_ma_device_config_playback_fields_witness :
  let blob := example_blob in
  length blob = sizeof_zig_ma_device_config
  /\ cfg_deviceType example_abi blob = 1
  /\ cfg_playback_format example_abi blob = 5
  /\ cfg_playback_channels example_abi blob = 1
  /\ cfg_sampleRate example_abi blob = 48000
  /\ cfg_dataCallback example_abi blob = 4198400
  /\ cfg_pUserData example_abi blob = 8392704
  /\ (forall i : nat,
        (48 <= i < sizeof_zig_ma_device_config)%nat -> blob !! i = Some x00).
Proof.
  apply (zig_ma_device_config_playback_fields example_abi
           (P := sim_platform example_abi) junk512 48000 4198400 8392704).
  - reflexivity.
  - reflexivity.
  - apply sim_config_init_contract. reflexivity.
  - reflexivity.
  - lia.
  - simpl. lia.
  - simpl. lia.
Defined.

Section ConfigBlobSize.

Context (A : abi) {P : Platform}.

Lemma memset_whole buf c n : length buf = n -> memset buf c n = replicate n c.
Proof. intros <-. apply memset_all. Qed.

(** C9: the blob returned by [zig_ma_device_config_playback] does not depend
    on what the local [result] held before the [memset]: two calls with the
    same arguments return the same 512 bytes, namely 512 zero bytes
    overwritten from the start with the native configuration built from the
    arguments. *)
Theorem zig_ma_device_config_playback_deterministic
    (result1 result2 : list byte) (sample_rate callback user_data : Z) :
  abi_ok A = true ->
  static_assert_ok A = true ->
  config_init_contract A ->
  length result1 = sizeof_zig_ma_device_config ->
  length result2 = sizeof_zig_ma_device_config ->
  zig_ma_device_config_playback A result1 sample_rate callback user_data
  = zig_ma_device_config_playback A result2 sample_rate callback user_data
  /\ length (zig_ma_device_config_playback A result1 sample_rate callback user_data)
     = sizeof_zig_ma_device_config
  /\ zig_ma_device_config_playback A result1 sample_rate callback user_data
     = memcpy (replicate sizeof_zig_ma_device_config x00)
         (cfg_before_copy A sample_rate callback user_data)
         (sizeof_ma_device_config A).
Proof.
  intros Hok Hsa Hinit H1 H2. split; [| split].
  - rewrite !zig_ma_device_config_playback_eq.
    by rewrite (memset_whole result1), (memset_whole result2).
  - rewrite length_zig_ma_device_config_playback by done.
    unfold static_assert_ok in Hsa. apply Nat.leb_le in Hsa. lia.
  - rewrite zig_ma_device_config_playback_eq.
    by rewrite (memset_whole result1).
Qed.

(** C4: the blob type is 512 bytes; the static assertion of line 11 holds
    exactly when 512 is at least the size of the native configuration, so
    in a program that builds the blob is large enough for it; and nothing
    at run time looks at the
    sizes: [zig_ma_device_config_playback] copies [sizeof(cfg)] bytes
    whatever the two sizes are, and the copy stays inside the 512 bytes of
    the blob exactly when the assertion holds. *)
Theorem config_blob_size_checked_at_build_time
    (result : list byte) (sample_rate callback user_data : Z) :
  abi_ok A = true ->
  config_init_contract A ->
  length result = sizeof_zig_ma_device_config ->
  sizeof_zig_ma_device_config = 512%nat
  /\ (static_assert_ok A = true
      <-> (sizeof_zig_ma_device_config >= sizeof_ma_device_config A)%nat)
  /\ length (zig_ma_device_config_playback A result sample_rate callback user_data)
     = Nat.max (sizeof_ma_device_config A) sizeof_zig_ma_device_config
  /\ (static_assert_ok A = true
      <-> length (zig_ma_device_config_playback A result sample_rate
                    callback user_data)
          = sizeof_zig_ma_device_config).
Proof.
  intros Hok Hinit Hres.
  pose proof (length_zig_ma_device_config_playback A result sample_rate
                callback user_data Hok Hinit Hres) as Hlen.
  split; [reflexivity |]. split; [| split].
  - unfold static_assert_ok. rewrite Nat.leb_le. lia.
  - exact Hlen.
  - unfold static_assert_ok. rewrite Nat.leb_le, Hlen. lia.
Qed.

End ConfigBlobSize.

Lemma zig_ma_device_config_playback_deterministic_witness :
  zig_ma_device_config_playback (P := sim_platform example_abi)
    example_abi junk512 48000 4198400 8392704
  = zig_ma_device_config_playback (P := sim_platform example_abi)
      example_abi (replicate 512 x00) 48000 4198400 8392704.
Proof.
  apply (zig_ma_device_config_playback_deterministic example_abi
           (P := sim_platform example_abi)).
  - reflexivity.
  - reflexivity.
  - apply sim_config_init_contract. reflexivity.
  - reflexivity.
  - reflexivity.
Defined.

Lemma config_blob_size_checked_at_build_time_witness :
  static_assert_ok example_abi = true
  /\ length example_blob = sizeof_zig_ma_device_config.
Proof.
  destruct (config_blob_size_checked_at_build_time example_abi
              (P := sim_platform example_abi) junk512 48000 4198400 8392704)
    as (_ & _ & _ & Hlen).
  - reflexivity.
  - apply sim_config_init_contract. reflexivity.
  - reflexivity.
  - split; [reflexivity | apply Hlen; reflexivity].
Defined.

Lemma sim_malloc_contract A : malloc_contract (P := sim_platform A).
Proof.
  intros n m w p init w' Hm Hp. cbn [malloc sim_platform] in Hm.
  unfold sim_malloc in Hm.
  destruct (decide (sim_next w = 0)) as [|Hne]; [by inversion Hm; subst |].
  destruct (m !! sim_next w) eqn:E; inversion Hm; subst; [done |].
  split; [done | apply length_replicate].
Qed.

Lemma sim_init_inv A ctx c d m w r m' w' :
  sim_init A ctx c d m w = Some (r, m', w') ->
  exists bc bd,
    m !! c = Some bc /\ m !! d = Some bd
    /\ (offsetof_device_sampleRate A + 4 <= length (blk_bytes bd))%nat
    /\ w' = w
    /\ ((r = MA_SUCCESS A
         /\ 0 < sim_negotiated w (cfg_sampleRate A (blk_bytes bc)) < 2 ^ 32
         /\ m' = <[d := Block (blk_heap bd)
                      (set_u32 A (replicate (length (blk_bytes bd)) x00)
                         (offsetof_device_sampleRate A)
                         (sim_negotiated w (cfg_sampleRate A (blk_bytes bc))))]> m)
        \/ (r = sim_error A /\ m' = m)).
Proof.
  unfold sim_init. intros H.
  destruct (m !! c) as [bc|] eqn:Ec; [| done].
  destruct (m !! d) as [bd|] eqn:Ed; [| done].
  destruct (Nat.leb_spec (offsetof_device_sampleRate A + 4) (length (blk_bytes bd)))
    as [Hle|Hgt]; [| done].
  exists bc, bd. do 3 (split; [done |]).
  destruct (sim_has_device w && (0 <? _) && (_ <? 2 ^ 32)) eqn:Eok;
    inversion H; subst; (split; [done |]).
  - left. rewrite !andb_true_iff, Z.ltb_lt, Z.ltb_lt in Eok.
    split; [done |]. split; [lia | done].
  - by right.
Qed.

Lemma sim_init_contract A : ma_device_init_contract (P := sim_platform A).
Proof.
  intros ctx c d m w r m' w' H. cbn [ma_device_init sim_platform] in H.
  apply sim_init_inv in H as (bc & bd & Hc & Hd & Hle & -> & [(-> & Hr & ->)|(-> & ->)]).
  - split.
    + intros a Ha. by rewrite lookup_insert_ne.
    + intros b Hb. rewrite Hd in Hb. inversion Hb; subst b.
      eexists. rewrite lookup_insert_eq. split; [done |].
      unfold set_u32. rewrite length_set_int; rewrite length_replicate; [done | lia].
  - split; [done |]. intros b Hb. exists (blk_bytes b). by destruct b.
Qed.

Lemma sim_init_negotiates A :
  ma_device_init_negotiates (P := sim_platform A) A sim_negotiated.
Proof.
  intros c d m w m' w' bc H Hc. cbn [ma_device_init sim_platform] in H.
  apply sim_init_inv in H as (bc' & bd & Hc' & Hd & Hle & -> & [(_ & Hr & ->)|(Hr & _)]).
  - rewrite Hc in Hc'. inversion Hc'; subst bc'.
    eexists. rewrite lookup_insert_eq. split; [done |]. cbn [blk_bytes].
    unfold set_u32, get_u32.
    split; [rewrite length_set_int; rewrite length_replicate; lia |].
    split; [| lia].
    rewrite get_set_int_same by (rewrite length_replicate; lia).
    apply Z.mod_small. change (8 * Z.of_nat 4) with 32. lia.
  - unfold sim_error in Hr. lia.
Qed.

(** ** Device lifecycle *)

Section Lifecycle.

Context (A : abi) {P : Platform}.

(** [zig_ma_device_init] spelled out call by call. *)
Lemma zig_ma_device_init_eq config (s : state) :
  zig_ma_device_init A config s =
  let '(p, init, w1) := malloc (sizeof_ma_device A) (mem s) (env s) in
  let t1 := trace s ++ [EvMalloc (sizeof_ma_device A) p] in
  if decide (p = NULL) then Some (NULL, State (mem s) w1 t1)
  else
    match ma_device_init NULL config p (<[p := Block true init]> (mem s)) w1 with
    | Some (r, m2, w2) =>
        let t2 := t1 ++ [EvNativeInit NULL config p] in
        if decide (r <> MA_SUCCESS A) then
          match free p m2 with
          | Some m3 => Some (NULL, State m3 w2 (t2 ++ [EvFree p]))
          | None => None
          end
        else Some (p, State m2 w2 t2)
    | None => None
    end.
Proof.
  unfold zig_ma_device_init, mbind, M_bind, call_malloc.
  destruct (malloc (sizeof_ma_device A) (mem s) (env s)) as [[p init] w1].
  destruct (decide (p = NULL)) as [Hp|Hp]; [done |].
  unfold call_ma_device_init. cbn [mem env trace].
  destruct (ma_device_init NULL config p _ w1) as [[[r m2] w2]|]; [| done].
  destruct (decide (r <> MA_SUCCESS A)); [| done].
  unfold call_free. cbn [mem env trace].
  by destruct (free p m2).
Qed.

Lemma free_heap_block p (m : gmap Z block) bytes :
  p <> NULL -> m !! p = Some (Block true bytes) -> free p m = Some (delete p m).
Proof.
  intros Hp Hm. unfold free. rewrite decide_False by done. by rewrite Hm.
Qed.

(** Undoing a fresh allocation that the engine only wrote into gives the
    memory back as it was. *)
Lemma delete_after_native_write p b (m m2 : gmap Z block) :
  m !! p = None ->
  (forall a, a <> p -> m2 !! a = <[p := b]> m !! a) ->
  delete p m2 = m.
Proof.
  intros Hfresh Hframe. apply map_eq. intros a.
  destruct (decide (a = p)) as [->|Ha].
  - by rewrite lookup_delete_eq.
  - rewrite lookup_delete_ne by done. rewrite Hframe by done.
    by rewrite lookup_insert_ne.
Qed.

(** C1: [zig_ma_device_init] returns null exactly on an error and leaks
    nothing.  With [p] the result of its [malloc]: (a) if [p] is null it
    returns null and has called nothing else; (b) if [ma_device_init]
    returns a code other than [MA_SUCCESS] it frees [p] and returns null,
    leaving memory as it found it; (c) if [ma_device_init] returns
    [MA_SUCCESS] it returns [p], non-null, a [malloc]ed block of
    [sizeof(ma_device)] bytes holding what the engine initialised; and the
    result is null only in cases (a) and (b). *)
Theorem zig_ma_device_init_null_iff_error config (s : state) p init w1 :
  malloc_contract ->
  ma_device_init_contract ->
  malloc (sizeof_ma_device A) (mem s) (env s) = (p, init, w1) ->
  let n := sizeof_ma_device A in
  let m1 := <[p := Block true init]> (mem s) in
  (p = NULL ->
     zig_ma_device_init A config s
     = Some (NULL, State (mem s) w1 (trace s ++ [EvMalloc n NULL])))
  /\ (forall r m2 w2,
        p <> NULL ->
        ma_device_init NULL config p m1 w1 = Some (r, m2, w2) ->
        r <> MA_SUCCESS A ->
        zig_ma_device_init A config s
        = Some (NULL, State (mem s) w2
                        (trace s ++ [EvMalloc n p; EvNativeInit NULL config p; EvFree p])))
  /\ (forall m2 w2,
        p <> NULL ->
        ma_device_init NULL config p m1 w1 = Some (MA_SUCCESS A, m2, w2) ->
        zig_ma_device_init A config s
        = Some (p, State m2 w2 (trace s ++ [EvMalloc n p; EvNativeInit NULL config p]))
        /\ mem s !! p = None
        /\ exists bytes, m2 !! p = Some (Block true bytes) /\ length bytes = n)
  /\ (forall h s',
        zig_ma_device_init A config s = Some (h, s') ->
        (h = NULL <->
         p = NULL
         \/ exists r m2 w2,
              ma_device_init NULL config p m1 w1 = Some (r, m2, w2)
              /\ r <> MA_SUCCESS A)).
Proof.
  intros Hmalloc Hinit Hm n m1.
  pose proof (zig_ma_device_init_eq config s) as Heq. rewrite Hm in Heq.
  cbv zeta in Heq. fold n m1 in Heq.
  assert (Hblock : forall r m2 w2,
             p <> NULL ->
             ma_device_init NULL config p m1 w1 = Some (r, m2, w2) ->
             mem s !! p = None
             /\ (exists bytes, m2 !! p = Some (Block true bytes) /\ length bytes = n)
             /\ delete p m2 = mem s).
  { intros r m2 w2 Hp Hcall.
    destruct (Hmalloc _ _ _ _ _ _ Hm Hp) as [Hfresh Hlen].
    destruct (Hinit _ _ _ _ _ _ _ _ Hcall) as [Hframe Hkeep].
    destruct (Hkeep (Block true init)) as (bytes & Hb & Hl).
    { subst m1. by rewrite lookup_insert_eq. }
    split; [done |]. split.
    - exists bytes. split; [done |]. cbn in Hl. lia.
    - by apply (delete_after_native_write p (Block true init)). }
  repeat split.
  - intros ->. rewrite Heq. by rewrite decide_True.
  - intros r m2 w2 Hp Hcall Hr. rewrite Heq.
    rewrite decide_False by done. rewrite Hcall. rewrite decide_True by done.
    destruct (Hblock r m2 w2 Hp Hcall) as (_ & (bytes & Hb & _) & Hdel).
    rewrite (free_heap_block p m2 bytes) by done. rewrite Hdel.
    by rewrite <- !app_assoc.
  - rename H into Hp, H0 into Hcall.
    rewrite Heq. rewrite decide_False by done. rewrite Hcall.
    rewrite decide_False by (intros Hne; by apply Hne).
    by rewrite <- !app_assoc.
  - rename H into Hp, H0 into Hcall.
    by destruct (Hblock _ m2 w2 Hp Hcall) as (? & _).
  - rename H into Hp, H0 into Hcall.
    by destruct (Hblock _ m2 w2 Hp Hcall) as (_ & ? & _).
  - intros ->. rewrite Heq in H.
    destruct (decide (p = NULL)) as [Hp|Hp]; [by left | right].
    destruct (ma_device_init NULL config p m1 w1) as [[[r m2] w2]|]; [| done].
    destruct (decide (r <> MA_SUCCESS A)) as [Hr|Hr].
    + by exists r, m2, w2.
    + inversion H. congruence.
  - intros [Hp | (r & m2 & w2 & Hcall & Hr)]; rewrite Heq in H.
    + rewrite decide_True in H by done. by inversion H.
    + destruct (decide (p = NULL)) as [Hp|Hp]; [by inversion H |].
      rewrite Hcall in H. rewrite decide_True in H by done.
      destruct (free p m2); by inversion H.
Qed.

End Lifecycle.

(** The three paths of [zig_ma_device_init] on the simulated engine. *)
Example zig_ma_device_init_success :
  zig_ma_device_init (P := sim_platform example_abi) example_abi 4096
    (example_state world_ok)
  = Some (65536,
          sim_state (<[65536 := Block true
                     (set_u32 example_abi (replicate 24 x00) 12 48000)]>
                   (mem (example_state world_ok)))
            (SimWorld 65560 true 44100 false)
            [EvMalloc 24 65536; EvNativeInit 0 4096 65536]).
Proof. vm_compute. reflexivity. Qed.

Example zig_ma_device_init_out_of_memory :
  zig_ma_device_init (P := sim_platform example_abi) example_abi 4096
    (example_state world_no_memory)
  = Some (NULL, sim_state (mem (example_state world_no_memory)) world_no_memory
                  [EvMalloc 24 0]).
Proof. vm_compute. reflexivity. Qed.

Example zig_ma_device_init_no_device :
  zig_ma_device_init (P := sim_platform example_abi) example_abi 4096
    (example_state world_no_device)
  = Some (NULL, sim_state (mem (example_state world_no_device))
                  (SimWorld 65560 false 44100 false)
                  [EvMalloc 24 65536; EvNativeInit 0 4096 65536; EvFree 65536]).
Proof. vm_compute. reflexivity. Qed.

Lemma zig_ma_device_init_null_iff_error_witness :
  zig_ma_device_init (P := sim_platform example_abi) example_abi 4096
    (example_state world_no_device)
  = Some (NULL, sim_state (mem (example_state world_no_device))
                  (SimWorld 65560 false 44100 false)
                  [EvMalloc 24 65536; EvNativeInit 0 4096 65536; EvFree 65536]).
Proof.
  destruct (zig_ma_device_init_null_iff_error example_abi
              (P := sim_platform example_abi) 4096
              (example_state world_no_device)
              65536 (replicate 24 xcd) (SimWorld 65560 false 44100 false))
    as (_ & Hfail & _).
  - apply sim_malloc_contract.
  - apply sim_init_contract.
  - vm_compute. reflexivity.
  - apply (Hfail (sim_error example_abi)
             (<[65536 := Block true (replicate 24 xcd)]>
                (mem (example_state world_no_device)))).
    + done.
    + vm_compute. reflexivity.
    + done.
Defined.

Section Handles.

Context (A : abi) {P : Platform}.

Lemma zig_ma_device_start_eq device (s : state) :
  zig_ma_device_start device s =
  match ma_device_start device (mem s) (env s) with
  | Some (_, m, w) => Some (tt, State m w (trace s ++ [EvNativeStart device]))
  | None => None
  end.
Proof.
  unfold zig_ma_device_start, mbind, M_bind, call_ma_device_start.
  by destruct (ma_device_start device (mem s) (env s)) as [[[r m] w]|].
Qed.

Lemma zig_ma_device_get_sample_rate_live device (s : state) b :
  device <> NULL ->
  mem s !! device = Some b ->
  (offsetof_device_sampleRate A + 4 <= length (blk_bytes b))%nat ->
  zig_ma_device_get_sample_rate A device s
  = Some (get_u32 A (blk_bytes b) (offsetof_device_sampleRate A), s).
Proof.
  intros Hd Hb Hlen. unfold zig_ma_device_get_sample_rate, load_u32.
  rewrite decide_False by done. rewrite Hb. by rewrite decide_True.
Qed.

Lemma zig_ma_device_get_sample_rate_state device (s : state) v s' :
  zig_ma_device_get_sample_rate A device s = Some (v, s') -> s' = s.
Proof.
  unfold zig_ma_device_get_sample_rate, load_u32. intros H.
  destruct (decide (device = NULL)); [done |].
  destruct (mem s !! device) as [b|]; [| done].
  destruct (decide (offsetof_device_sampleRate A + 4 <= length (blk_bytes b))%nat);
    [| done].
  by inversion H.
Qed.

(** C3: [zig_ma_device_uninit] on a null handle returns at once, having
    called nothing and freed nothing; on a non-null handle it calls
    [ma_device_uninit] and then frees the block. *)
Theorem zig_ma_device_uninit_null_or_teardown device (s : state) :
  (device = NULL -> zig_ma_device_uninit device s = Some (tt, s))
  /\ (forall m1 w1 bytes,
        device <> NULL ->
        ma_device_uninit device (mem s) (env s) = Some (m1, w1) ->
        m1 !! device = Some (Block true bytes) ->
        zig_ma_device_uninit device s
        = Some (tt, State (delete device m1) w1
                      (trace s ++ [EvNativeUninit device; EvFree device]))).
Proof.
  split.
  - intros ->. reflexivity.
  - intros m1 w1 bytes Hd Hcall Hblk.
    unfold zig_ma_device_uninit. rewrite decide_True by done.
    unfold mbind, M_bind, call_ma_device_uninit. rewrite Hcall.
    unfold call_free. cbn [mem env trace].
    rewrite (free_heap_block device m1 bytes) by done.
    by rewrite <- app_assoc.
Qed.

(** C5: [zig_ma_device_start] returns nothing, whatever [ma_device_start]
    returned: the result code appears neither in the value nor in the state
    it leaves, so two runs in which the engine returns different codes but
    does the same are indistinguishable to the caller. *)
Theorem zig_ma_device_start_discards_result device (s : state) r m w :
  ma_device_start device (mem s) (env s) = Some (r, m, w) ->
  zig_ma_device_start device s
  = Some (tt, State m w (trace s ++ [EvNativeStart device]))
  /\ (forall (s2 : state) r2,
        trace s2 = trace s ->
        ma_device_start device (mem s2) (env s2) = Some (r2, m, w) ->
        zig_ma_device_start device s2 = zig_ma_device_start device s).
Proof.
  intros Hcall. split.
  - by rewrite zig_ma_device_start_eq, Hcall.
  - intros s2 r2 Ht Hcall2.
    by rewrite !zig_ma_device_start_eq, Hcall, Hcall2, Ht.
Qed.

(** C7: only [zig_ma_device_uninit] tests its handle.  On a null handle
    [zig_ma_device_get_sample_rate] is undefined and [zig_ma_device_start]
    hands the null pointer to [ma_device_start] (so it is undefined when
    that call is), while [zig_ma_device_uninit] returns without a call.  On
    a handle that designates a device block [zig_ma_device_get_sample_rate]
    is defined, and [zig_ma_device_start] is defined on every handle on
    which [ma_device_start] is. *)
Theorem null_check_only_in_uninit (s : state) :
  zig_ma_device_get_sample_rate A NULL s = None
  /\ (zig_ma_device_start NULL s = None
      <-> ma_device_start NULL (mem s) (env s) = None)
  /\ (forall u s', zig_ma_device_start NULL s = Some (u, s') ->
                   trace s' = trace s ++ [EvNativeStart NULL])
  /\ zig_ma_device_uninit NULL s = Some (tt, s)
  /\ (forall device b,
        device <> NULL ->
        mem s !! device = Some b ->
        (offsetof_device_sampleRate A + 4 <= length (blk_bytes b))%nat ->
        is_Some (zig_ma_device_get_sample_rate A device s))
  /\ (forall device,
        is_Some (zig_ma_device_start device s)
        <-> is_Some (ma_device_start device (mem s) (env s))).
Proof.
  repeat split.
  - rewrite zig_ma_device_start_eq.
    by destruct (ma_device_start NULL (mem s) (env s)) as [[[r m] w]|].
  - intros H. by rewrite zig_ma_device_start_eq, H.
  - intros u s'. rewrite zig_ma_device_start_eq.
    destruct (ma_device_start NULL (mem s) (env s)) as [[[r m] w]|]; [| done].
    intros H. by inversion H.
  - intros device b Hd Hb Hlen.
    rewrite (zig_ma_device_get_sample_rate_live device s b); eauto.
  - rewrite zig_ma_device_start_eq.
    destruct (ma_device_start device (mem s) (env s)) as [[[r m] w]|]; [eauto |].
    by intros [? ?].
  - rewrite zig_ma_device_start_eq.
    destruct (ma_device_start device (mem s) (env s)) as [[[r m] w]|]; [eauto |].
    by intros [? ?].
Qed.

(** C10: [zig_ma_device_get_sample_rate] only reads.  Whenever it returns,
    the state it leaves is the state it was given - same memory, same
    allocator and backend, no call made - and on a handle that designates a
    device block it returns the [sampleRate] member of that block. *)
Theorem zig_ma_device_get_sample_rate_pure device (s : state) b :
  device <> NULL ->
  mem s !! device = Some b ->
  (offsetof_device_sampleRate A + 4 <= length (blk_bytes b))%nat ->
  zig_ma_device_get_sample_rate A device s
  = Some (get_u32 A (blk_bytes b) (offsetof_device_sampleRate A), s)
  /\ (forall device' v s',
        zig_ma_device_get_sample_rate A device' s = Some (v, s') ->
        s' = s /\ mem s' = mem s /\ env s' = env s /\ trace s' = trace s).
Proof.
  intros Hd Hb Hlen. split.
  - by apply zig_ma_device_get_sample_rate_live.
  - intros device' v s' H.
    apply zig_ma_device_get_sample_rate_state in H. by subst s'.
Qed.

End Handles.

(** ** The theorems at work on the simulated engine *)

Lemma zig_ma_device_uninit_null_or_teardown_witness :
  zig_ma_device_uninit 65536 (device_state world_ok)
  = Some (tt, sim_state (delete 65536 (mem (device_state world_ok))) world_ok
                (trace (device_state world_ok)
                 ++ [EvNativeUninit 65536; EvFree 65536])).
Proof.
  destruct (zig_ma_device_uninit_null_or_teardown (P := sim_platform example_abi)
              65536 (device_state world_ok)) as [_ Hlive].
  apply (Hlive (mem (device_state world_ok)) world_ok example_device).
  - done.
  - vm_compute. reflexivity.
  - vm_compute. reflexivity.
Defined.

Example zig_ma_device_uninit_null (s : state (P := sim_platform example_abi)) :
  zig_ma_device_uninit NULL s = Some (tt, s).
Proof. reflexivity. Qed.

(** A start that fails: the device has gone, the engine reports an error,
    the shim returns as if nothing had happened. *)
Lemma zig_ma_device_start_discards_result_witness :
  zig_ma_device_start 65536 (device_state world_no_device)
  = Some (tt, sim_state (mem (device_state world_no_device)) world_no_device
                (trace (device_state world_no_device) ++ [EvNativeStart 65536])).
Proof.
  apply (zig_ma_device_start_discards_result (P := sim_platform example_abi)
           65536 (device_state world_no_device) (sim_error example_abi)).
  vm_compute. reflexivity.
Defined.

Example zig_ma_device_start_null_undefined :
  zig_ma_device_start (P := sim_platform example_abi) NULL (device_state world_ok)
  = None.
Proof. vm_compute. reflexivity. Qed.

Lemma zig_ma_device_get_sample_rate_pure_witness :
  zig_ma_device_get_sample_rate (P := sim_platform example_abi) example_abi
    65536 (device_state world_ok)
  = Some (48000, device_state world_ok).
Proof.
  apply (zig_ma_device_get_sample_rate_pure example_abi
           (P := sim_platform example_abi) 65536 (device_state world_ok)
           (Block true example_device)).
  - done.
  - vm_compute. reflexivity.
  - vm_compute. lia.
Defined.

(** On the simulated engine a null handle makes [ma_device_start]
    undefined, and so [zig_ma_device_start]; [zig_ma_device_uninit] is
    unaffected. *)
Lemma null_check_only_in_uninit_witness :
  zig_ma_device_start (P := sim_platform example_abi) NULL (device_state world_ok)
  = None
  /\ zig_ma_device_uninit (P := sim_platform example_abi) NULL
       (device_state world_ok)
     = Some (tt, device_state world_ok).
Proof.
  destruct (null_check_only_in_uninit example_abi (P := sim_platform example_abi)
              (device_state world_ok)) as (_ & Hstart & _ & Huninit & _).
  split; [| exact Huninit].
  apply Hstart. vm_compute. reflexivity.
Defined.

(** ** Beyond single calls: frames and the life of a handle *)

Lemma sim_start_contract A : ma_device_start_contract (P := sim_platform A).
Proof.
  intros d m w r m' w' H. cbn [ma_device_start sim_platform] in H.
  unfold sim_start in H. destruct (m !! d) as [b|] eqn:Hd; [| done].
  assert (m' = m) as -> by (destruct (sim_has_device w); by inversion H).
  split; [done |]. split; [by rewrite Hd |].
  intros b' Hb'. exists (blk_bytes b'). rewrite Hb'. by destruct b'.
Qed.

Lemma sim_uninit_contract A : ma_device_uninit_contract (P := sim_platform A).
Proof.
  intros d m w m' w' H. cbn [ma_device_uninit sim_platform] in H.
  unfold sim_uninit in H. destruct (m !! d) as [b|] eqn:Hd; [| done].
  inversion H; subst m' w'.
  split; [done |]. split; [by rewrite Hd |].
  intros b' Hb'. exists (blk_bytes b'). rewrite Hb'. by destruct b'.
Qed.

Section BufferFrames.

Lemma lookup_store_bytes_outside buf off bs (i : nat) :
  (off + length bs <= length buf)%nat ->
  ~ in_member off (length bs) i ->
  store_bytes buf off bs !! i = buf !! i.
Proof.
  intros Hin Hout. unfold in_member in Hout. unfold store_bytes.
  destruct (decide (i < off)%nat) as [Hlt|Hge].
  - rewrite lookup_app_l by (rewrite length_take; lia).
    by apply lookup_take_lt.
  - rewrite lookup_app_r by (rewrite length_take; lia).
    rewrite length_take.
    rewrite lookup_app_r by lia.
    rewrite lookup_drop. f_equal. lia.
Qed.

Lemma lookup_set_int_outside A n buf off v (i : nat) :
  (off + n <= length buf)%nat ->
  ~ in_member off n i ->
  set_int A n buf off v !! i = buf !! i.
Proof.
  intros Hin Hout. unfold set_int.
  apply lookup_store_bytes_outside; by rewrite length_encode_int.
Qed.

Lemma lookup_memcpy_within dst src n (i : nat) :
  (n <= length src)%nat -> (i < n)%nat -> memcpy dst src n !! i = src !! i.
Proof.
  intros Hn Hi. unfold memcpy.
  rewrite lookup_app_l by (rewrite length_take; lia).
  by apply lookup_take_lt.
Qed.

End BufferFrames.

Section ConfigBlobFrames.

Context (A : abi) {P : Platform}.

Lemma lookup_set_int_outside_at N n buf off v (i : nat) :
  length buf = N -> (off + n <= N)%nat ->
  ~ in_member off n i ->
  set_int A n buf off v !! i = buf !! i.
Proof. intros <- Hin Hout. by apply lookup_set_int_outside. Qed.

Local Ltac pass_store Hlen :=
  rewrite (lookup_set_int_outside_at (sizeof_ma_device_config A));
  [ | repeat (apply length_set_int_eq; [| lia]); exact Hlen | lia | done ].

(** The shim overrides five members of the configuration that
    [ma_device_config_init] returns and nothing else: every other byte of
    the native configuration reaches the blob as the engine set it. *)
Theorem zig_ma_device_config_playback_keeps_defaults
    (result : list byte) (sample_rate callback user_data : Z) (i : nat) :
  abi_ok A = true ->
  config_init_contract A ->
  (i < sizeof_ma_device_config A)%nat ->
  ~ in_member (offsetof_playback_format A) 4 i ->
  ~ in_member (offsetof_playback_channels A) 4 i ->
  ~ in_member (offsetof_sampleRate A) 4 i ->
  ~ in_member (offsetof_dataCallback A) (sizeof_pointer A) i ->
  ~ in_member (offsetof_pUserData A) (sizeof_pointer A) i ->
  zig_ma_device_config_playback A result sample_rate callback user_data !! i
  = ma_device_config_init (ma_device_type_playback A) !! i.
Proof.
  intros Hok Hinit Hi Hfmt Hch Hsr Hcb Hud.
  pose proof (length_cfg_before_copy A sample_rate callback user_data Hok Hinit) as Hcfg.
  destruct (Hinit (ma_device_type_playback A)) as [Hlen _].
  abi_facts Hok.
  rewrite zig_ma_device_config_playback_eq.
  rewrite lookup_memcpy_within by lia.
  unfold cfg_before_copy, set_ptr, set_u32.
  by do 5 pass_store Hlen.
Qed.

(** The three arguments reach the blob through their own members only: two
    blobs built from different arguments (and from different garbage in the
    local [result]) agree on every byte outside the [sampleRate],
    [dataCallback] and [pUserData] members. *)
Theorem zig_ma_device_config_playback_arguments_local
    (result1 result2 : list byte)
    (sample_rate1 callback1 user_data1 sample_rate2 callback2 user_data2 : Z)
    (i : nat) :
  abi_ok A = true ->
  config_init_contract A ->
  length result1 = sizeof_zig_ma_device_config ->
  length result2 = sizeof_zig_ma_device_config ->
  ~ in_member (offsetof_sampleRate A) 4 i ->
  ~ in_member (offsetof_dataCallback A) (sizeof_pointer A) i ->
  ~ in_member (offsetof_pUserData A) (sizeof_pointer A) i ->
  zig_ma_device_config_playback A result1 sample_rate1 callback1 user_data1 !! i
  = zig_ma_device_config_playback A result2 sample_rate2 callback2 user_data2 !! i.
Proof.
  intros Hok Hinit Hr1 Hr2 Hsr Hcb Hud.
  pose proof (length_cfg_before_copy A sample_rate1 callback1 user_data1 Hok Hinit) as Hc1.
  pose proof (length_cfg_before_copy A sample_rate2 callback2 user_data2 Hok Hinit) as Hc2.
  destruct (Hinit (ma_device_type_playback A)) as [Hlen _].
  abi_facts Hok.
  rewrite !zig_ma_device_config_playback_eq.
  destruct (decide (i < sizeof_ma_device_config A)%nat) as [Hi|Hi].
  - rewrite !lookup_memcpy_within by lia.
    unfold cfg_before_copy, set_ptr, set_u32.
    do 3 pass_store Hlen. symmetry. by do 3 pass_store Hlen.
  - rewrite !lookup_memcpy_beyond by lia.
    by rewrite (memset_whole result1), (memset_whole result2).
Qed.

End ConfigBlobFrames.

Lemma zig_ma_device_config_playback_keeps_defaults_witness :
  example_blob !! 24%nat
  = ma_device_config_init (Platform := sim_platform example_abi) 1 !! 24%nat.
Proof.
  apply (zig_ma_device_config_playback_keeps_defaults example_abi
           (P := sim_platform example_abi) junk512 48000 4198400 8392704 24).
  - reflexivity.
  - apply sim_config_init_contract. reflexivity.
  - simpl. lia.
  - unfold in_member. simpl. lia.
  - unfold in_member. simpl. lia.
  - unfold in_member. simpl. lia.
  - unfold in_member. simpl. lia.
  - unfold in_member. simpl. lia.
Defined.

Lemma zig_ma_device_config_playback_arguments_local_witness :
  example_blob !! 33%nat
  = zig_ma_device_config_playback (P := sim_platform example_abi) example_abi
      (replicate 512 x00) 44100 0 0 !! 33%nat.
Proof.
  apply (zig_ma_device_config_playback_arguments_local example_abi
           (P := sim_platform example_abi)).
  - reflexivity.
  - apply sim_config_init_contract. reflexivity.
  - reflexivity.
  - reflexivity.
  - unfold in_member. simpl. lia.
  - unfold in_member. simpl. lia.
  - unfold in_member. simpl. lia.
Defined.

Section HandleLife.

Context (A : abi) {P : Platform}.

Lemma zig_ma_device_uninit_eq device (s : state) :
  device <> NULL ->
  zig_ma_device_uninit device s =
  match ma_device_uninit device (mem s) (env s) with
  | Some (m1, w1) =>
      match free device m1 with
      | Some m2 =>
          Some (tt, State m2 w1 (trace s ++ [EvNativeUninit device; EvFree device]))
      | None => None
      end
  | None => None
  end.
Proof.
  intros Hd. unfold zig_ma_device_uninit. rewrite decide_True by done.
  unfold mbind, M_bind, call_ma_device_uninit.
  destruct (ma_device_uninit device (mem s) (env s)) as [[m1 w1]|]; [| done].
  unfold call_free. cbn [mem env trace].
  destruct (free device m1); [| done]. by rewrite <- app_assoc.
Qed.

Lemma free_Some_inv p (m m' : gmap Z block) :
  p <> NULL -> free p m = Some m' ->
  m' = delete p m /\ exists bytes, m !! p = Some (Block true bytes).
Proof.
  intros Hp. unfold free. rewrite decide_False by done.
  destruct (m !! p) as [[[] bytes]|]; [| done | done].
  intros H. inversion H. eauto.
Qed.

(** What a returned [zig_ma_device_uninit] did to memory. *)
Lemma zig_ma_device_uninit_inv device (s : state) u s' :
  device <> NULL ->
  zig_ma_device_uninit device s = Some (u, s') ->
  exists m1 w1 bytes,
    ma_device_uninit device (mem s) (env s) = Some (m1, w1)
    /\ m1 !! device = Some (Block true bytes)
    /\ s' = State (delete device m1) w1
              (trace s ++ [EvNativeUninit device; EvFree device]).
Proof.
  intros Hd. rewrite zig_ma_device_uninit_eq by done.
  destruct (ma_device_uninit device (mem s) (env s)) as [[m1 w1]|]; [| done].
  destruct (free device m1) as [m2|] eqn:Hfree; [| done].
  apply free_Some_inv in Hfree as [-> [bytes Hb]]; [| done].
  intros H. inversion H. by exists m1, w1, bytes.
Qed.

(** What a returned [zig_ma_device_init] did to memory. *)
Lemma zig_ma_device_init_inv config (s : state) h s1 :
  malloc_contract ->
  ma_device_init_contract ->
  zig_ma_device_init A config s = Some (h, s1) ->
  (h = NULL -> mem s1 = mem s)
  /\ (h <> NULL ->
      mem s !! h = None
      /\ (exists bytes, mem s1 !! h = Some (Block true bytes)
                        /\ length bytes = sizeof_ma_device A)
      /\ (forall a, a <> h -> mem s1 !! a = mem s !! a)
      /\ trace s1 = trace s ++ [EvMalloc (sizeof_ma_device A) h;
                                EvNativeInit NULL config h]).
Proof.
  intros Hmalloc Hinit. rewrite zig_ma_device_init_eq.
  destruct (malloc (sizeof_ma_device A) (mem s) (env s)) as [[p init] w1] eqn:Hm.
  cbv zeta.
  destruct (decide (p = NULL)) as [Hp|Hp].
  { intros H. inversion H; subst h s1. split; [done | by intros ?]. }
  destruct (Hmalloc _ _ _ _ _ _ Hm Hp) as [Hfresh Hlen].
  destruct (ma_device_init NULL config p _ w1) as [[[r m2] w2]|] eqn:Hcall; [| done].
  destruct (Hinit _ _ _ _ _ _ _ _ Hcall) as [Hframe Hkeep].
  destruct (Hkeep (Block true init)) as (bytes & Hb & Hl);
    [by rewrite lookup_insert_eq |].
  destruct (decide (r <> MA_SUCCESS A)) as [Hr|Hr].
  - rewrite (free_heap_block p m2 bytes) by done.
    intros H. inversion H; subst h s1. split; [| done]. intros _. cbn [mem].
    by apply (delete_after_native_write p (Block true init)).
  - intros H. inversion H; subst h s1. split; [done |]. intros _. cbn [mem trace].
    split; [done |]. split; [exists bytes; split; [done | cbn in Hl; lia] |].
    split; [| by rewrite <- app_assoc].
    intros a Ha. rewrite Hframe by done. by rewrite lookup_insert_ne.
Qed.

(** Tearing down the one block that was added gives the memory back. *)
Lemma zig_ma_device_uninit_restores (m0 : gmap Z block) h (s : state) m3 w3 :
  ma_device_uninit_contract ->
  h <> NULL ->
  m0 !! h = None ->
  (exists bytes, mem s !! h = Some (Block true bytes)) ->
  (forall a, a <> h -> mem s !! a = m0 !! a) ->
  ma_device_uninit h (mem s) (env s) = Some (m3, w3) ->
  zig_ma_device_uninit h s
  = Some (tt, State m0 w3 (trace s ++ [EvNativeUninit h; EvFree h])).
Proof.
  intros Hun Hh Hfresh [bytes Hb] Hframe Hcall.
  destruct (Hun _ _ _ _ _ Hcall) as (Hother & _ & Hkeep).
  destruct (Hkeep _ Hb) as [bytes' Hb']. cbn in Hb'.
  rewrite zig_ma_device_uninit_eq, Hcall by done.
  rewrite (free_heap_block h m3 bytes') by done.
  do 3 f_equal. apply map_eq. intros a.
  destruct (decide (a = h)) as [->|Ha].
  - by rewrite lookup_delete_eq.
  - rewrite lookup_delete_ne by done. rewrite Hother by done. by apply Hframe.
Qed.

End HandleLife.

Section HandleLifeTheorems.

Context (A : abi) {P : Platform}.

(** [zig_ma_device_init] disturbs nothing that was there: whatever it
    returns, every block that was live before the call (the configuration,
    devices created earlier) is live afterwards with the same bytes. *)
Theorem zig_ma_device_init_frame config (s : state) h s1 :
  malloc_contract ->
  ma_device_init_contract ->
  zig_ma_device_init A config s = Some (h, s1) ->
  forall a blk, mem s !! a = Some blk -> mem s1 !! a = Some blk.
Proof.
  intros Hmalloc Hinit Hrun a blk Ha.
  destruct (zig_ma_device_init_inv A config s h s1 Hmalloc Hinit Hrun) as [Hnull Hlive].
  destruct (decide (h = NULL)) as [Hh|Hh].
  - by rewrite (Hnull Hh).
  - destruct (Hlive Hh) as (Hfresh & _ & Hframe & _).
    rewrite Hframe; [done | congruence].
Qed.

(** Two devices never share a record: a second successful
    [zig_ma_device_init] returns a handle different from the first, and
    leaves the first device's record as it was. *)
Theorem zig_ma_device_init_handles_distinct
    config1 config2 (s : state) h1 s1 h2 s2 :
  malloc_contract ->
  ma_device_init_contract ->
  zig_ma_device_init A config1 s = Some (h1, s1) ->
  h1 <> NULL ->
  zig_ma_device_init A config2 s1 = Some (h2, s2) ->
  h2 <> NULL ->
  h1 <> h2 /\ mem s2 !! h1 = mem s1 !! h1.
Proof.
  intros Hmalloc Hinit Hrun1 Hh1 Hrun2 Hh2.
  destruct (zig_ma_device_init_inv A config1 s h1 s1 Hmalloc Hinit Hrun1) as [_ H1].
  destruct (zig_ma_device_init_inv A config2 s1 h2 s2 Hmalloc Hinit Hrun2) as [_ H2].
  destruct (H1 Hh1) as (_ & (bytes & Hb & _) & _).
  destruct (H2 Hh2) as (Hfresh & _ & Hframe & _).
  assert (h1 <> h2) by congruence.
  split; [done | by apply Hframe].
Qed.

(** A device that is created and torn down at once leaves no trace in
    memory: after [zig_ma_device_init] and [zig_ma_device_uninit] on its
    handle, memory is what it was before the [zig_ma_device_init], and the
    calls made were [malloc], [ma_device_init], [ma_device_uninit], [free],
    in this order. *)
Theorem zig_ma_device_init_uninit_restores_memory
    config (s : state) h s1 m3 w3 :
  malloc_contract ->
  ma_device_init_contract ->
  ma_device_uninit_contract ->
  zig_ma_device_init A config s = Some (h, s1) ->
  h <> NULL ->
  ma_device_uninit h (mem s1) (env s1) = Some (m3, w3) ->
  zig_ma_device_uninit h s1
  = Some (tt, State (mem s) w3
                (trace s ++ [EvMalloc (sizeof_ma_device A) h;
                             EvNativeInit NULL config h;
                             EvNativeUninit h; EvFree h])).
Proof.
  intros Hmalloc Hinit Hun Hrun Hh Hcall.
  destruct (zig_ma_device_init_inv A config s h s1 Hmalloc Hinit Hrun) as [_ Hlive].
  destruct (Hlive Hh) as (Hfresh & (bytes & Hb & _) & Hframe & Htrace).
  rewrite (zig_ma_device_uninit_restores (mem s) h s1 m3 w3); eauto.
  by rewrite Htrace, <- app_assoc.
Qed.

(** The same with the device started in between: [zig_ma_device_start]
    changes nothing in what [zig_ma_device_uninit] has to release. *)
Theorem zig_ma_device_init_start_uninit_restores_memory
    config (s : state) h s1 u s2 m3 w3 :
  malloc_contract ->
  ma_device_init_contract ->
  ma_device_start_contract ->
  ma_device_uninit_contract ->
  zig_ma_device_init A config s = Some (h, s1) ->
  h <> NULL ->
  zig_ma_device_start h s1 = Some (u, s2) ->
  ma_device_uninit h (mem s2) (env s2) = Some (m3, w3) ->
  zig_ma_device_uninit h s2
  = Some (tt, State (mem s) w3
                (trace s ++ [EvMalloc (sizeof_ma_device A) h;
                             EvNativeInit NULL config h;
                             EvNativeStart h;
                             EvNativeUninit h; EvFree h])).
Proof.
  intros Hmalloc Hinit Hst Hun Hrun Hh Hstart Hcall.
  destruct (zig_ma_device_init_inv A config s h s1 Hmalloc Hinit Hrun) as [_ Hlive].
  destruct (Hlive Hh) as (Hfresh & (bytes & Hb & _) & Hframe & Htrace).
  rewrite zig_ma_device_start_eq in Hstart.
  destruct (ma_device_start h (mem s1) (env s1)) as [[[r m2] w2]|] eqn:Hnative;
    [| done].
  inversion Hstart; subst u s2. cbn [mem env] in Hcall.
  destruct (Hst _ _ _ _ _ _ Hnative) as (Hother & _ & Hkeep).
  destruct (Hkeep _ Hb) as [bytes2 Hb2]. cbn in Hb2.
  rewrite (zig_ma_device_uninit_restores (mem s) h _ m3 w3); cbn [mem env trace]; eauto.
  - by rewrite Htrace, <- !app_assoc.
  - intros a Ha. rewrite Hother by done. by apply Hframe.
Qed.

(** [zig_ma_device_uninit] does not guard against a second call: once it
    has returned for a non-null handle, calling it again with that handle is
    undefined (the block is gone; at the latest the [free] is a double
    free). *)
Theorem zig_ma_device_uninit_twice_undefined device (s : state) u s' :
  ma_device_uninit_contract ->
  device <> NULL ->
  zig_ma_device_uninit device s = Some (u, s') ->
  zig_ma_device_uninit device s' = None.
Proof.
  intros Hun Hd Hrun.
  apply zig_ma_device_uninit_inv in Hrun as (m1 & w1 & bytes & _ & _ & ->); [| done].
  rewrite zig_ma_device_uninit_eq by done. cbn [mem env trace].
  destruct (ma_device_uninit device (delete device m1) w1) as [[m2 w2]|] eqn:Hcall;
    [| done].
  destruct (Hun _ _ _ _ _ Hcall) as (_ & Hgone & _).
  unfold free. rewrite decide_False by done.
  by rewrite Hgone by apply lookup_delete_eq.
Qed.

(** A handle is dead after [zig_ma_device_uninit]: reading the sample rate
    through it is undefined. *)
Theorem zig_ma_device_get_sample_rate_after_uninit device (s : state) u s' :
  zig_ma_device_uninit device s = Some (u, s') ->
  zig_ma_device_get_sample_rate A device s' = None.
Proof.
  intros Hrun. unfold zig_ma_device_get_sample_rate, load_u32.
  destruct (decide (device = NULL)) as [Hd|Hd]; [done |].
  apply zig_ma_device_uninit_inv in Hrun as (m1 & w1 & bytes & _ & _ & ->); [| done].
  cbn [mem]. by rewrite lookup_delete_eq.
Qed.

(** [zig_ma_device_uninit] releases its own device and nothing else: every
    other block (other devices, the configuration) is as before. *)
Theorem zig_ma_device_uninit_frame device (s : state) u s' :
  ma_device_uninit_contract ->
  zig_ma_device_uninit device s = Some (u, s') ->
  forall a, a <> device -> mem s' !! a = mem s !! a.
Proof.
  intros Hun Hrun a Ha.
  destruct (decide (device = NULL)) as [->|Hd].
  - cbv in Hrun. by inversion Hrun.
  - apply zig_ma_device_uninit_inv in Hrun as (m1 & w1 & bytes & Hcall & _ & ->);
      [| done].
    destruct (Hun _ _ _ _ _ Hcall) as (Hother & _).
    cbn [mem]. rewrite lookup_delete_ne by done. by apply Hother.
Qed.

End HandleLifeTheorems.

Lemma zig_ma_device_init_frame_witness :
  mem (device_state world_after_init) !! 4096 = Some (Block false example_blob).
Proof.
  apply (zig_ma_device_init_frame example_abi (P := sim_platform example_abi)
           4096 (example_state world_ok) 65536 (device_state world_after_init)).
  - apply sim_malloc_contract.
  - apply sim_init_contract.
  - vm_compute. reflexivity.
  - vm_compute. reflexivity.
Defined.

Lemma zig_ma_device_init_handles_distinct_witness :
  (65536 : Z) <> 65560
  /\ mem two_devices_state !! 65536 = mem (device_state world_after_init) !! 65536.
Proof.
  apply (zig_ma_device_init_handles_distinct example_abi
           (P := sim_platform example_abi) 4096 4096 (example_state world_ok)).
  - apply sim_malloc_contract.
  - apply sim_init_contract.
  - vm_compute. reflexivity.
  - done.
  - vm_compute. reflexivity.
  - done.
Defined.

Lemma zig_ma_device_init_uninit_restores_memory_witness :
  zig_ma_device_uninit 65536 (device_state world_after_init)
  = Some (tt, sim_state (mem (example_state world_ok)) world_after_init
                (trace (example_state world_ok)
                 ++ [EvMalloc 24 65536; EvNativeInit NULL 4096 65536;
                     EvNativeUninit 65536; EvFree 65536])).
Proof.
  apply (zig_ma_device_init_uninit_restores_memory example_abi
           (P := sim_platform example_abi) 4096 (example_state world_ok)
           65536 (device_state world_after_init)
           (mem (device_state world_after_init)) world_after_init).
  - apply sim_malloc_contract.
  - apply sim_init_contract.
  - apply sim_uninit_contract.
  - vm_compute. reflexivity.
  - done.
  - vm_compute. reflexivity.
Defined.

Lemma zig_ma_device_init_start_uninit_restores_memory_witness :
  zig_ma_device_uninit 65536 started_state
  = Some (tt, sim_state (mem (example_state world_ok)) world_after_init
                (trace (example_state world_ok)
                 ++ [EvMalloc 24 65536; EvNativeInit NULL 4096 65536;
                     EvNativeStart 65536;
                     EvNativeUninit 65536; EvFree 65536])).
Proof.
  apply (zig_ma_device_init_start_uninit_restores_memory example_abi
           (P := sim_platform example_abi) 4096 (example_state world_ok)
           65536 (device_state world_after_init) tt started_state
           (mem started_state) world_after_init).
  - apply sim_malloc_contract.
  - apply sim_init_contract.
  - apply sim_start_contract.
  - apply sim_uninit_contract.
  - vm_compute. reflexivity.
  - done.
  - vm_compute. reflexivity.
  - vm_compute. reflexivity.
Defined.

Lemma zig_ma_device_uninit_twice_undefined_witness :
  zig_ma_device_uninit 65536 torn_down_state = None.
Proof.
  apply (zig_ma_device_uninit_twice_undefined (P := sim_platform example_abi)
           65536 (device_state world_ok) tt).
  - apply (sim_uninit_contract example_abi).
  - done.
  - vm_compute. reflexivity.
Defined.

Lemma zig_ma_device_get_sample_rate_after_uninit_witness :
  zig_ma_device_get_sample_rate (P := sim_platform example_abi) example_abi
    65536 torn_down_state = None.
Proof.
  apply (zig_ma_device_get_sample_rate_after_uninit example_abi
           (P := sim_platform example_abi) 65536 (device_state world_ok) tt).
  vm_compute. reflexivity.
Defined.

Lemma zig_ma_device_uninit_frame_witness :
  mem torn_down_state !! 4096 = mem (device_state world_ok) !! 4096.
Proof.
  apply (zig_ma_device_uninit_frame (P := sim_platform example_abi)
           65536 (device_state world_ok) tt).
  - apply (sim_uninit_contract example_abi).
  - vm_compute. reflexivity.
  - done.
Defined.

(** ** The configuration and the rate across calls *)

Lemma sim_start_keeps_rate A : ma_device_start_keeps_rate (P := sim_platform A) A.
Proof.
  intros d m w r m' w' b H Hb Hlen. cbn [ma_device_start sim_platform] in H.
  unfold sim_start in H. rewrite Hb in H.
  assert (m' = m) as -> by (destruct (sim_has_device w); by inversion H).
  by exists b.
Qed.

Section InitAndRate.

Context (A : abi) {P : Platform}.

(** The [sampleRate] member of a live device record survives every call of
    the shim that is not the teardown of that device. *)
Lemma still_live_keeps_rate h (s1 s2 : state) bd :
  malloc_contract ->
  ma_device_init_contract ->
  ma_device_start_contract ->
  ma_device_start_keeps_rate A ->
  ma_device_uninit_contract ->
  still_live A h s1 s2 ->
  mem s1 !! h = Some bd ->
  (offsetof_device_sampleRate A + 4 <= length (blk_bytes bd))%nat ->
  exists bd2,
    mem s2 !! h = Some bd2
    /\ (offsetof_device_sampleRate A + 4 <= length (blk_bytes bd2))%nat
    /\ get_u32 A (blk_bytes bd2) (offsetof_device_sampleRate A)
       = get_u32 A (blk_bytes bd) (offsetof_device_sampleRate A).
Proof.
  intros Hmalloc Hinit Hst Hkeep Hun Hlive Hbd Hlen.
  induction Hlive as [| s2 device u s3 _ IH Hrun | s2 device v s3 _ IH Hrun
                      | s2 config h' s3 _ IH Hrun | s2 device u s3 _ IH Hne Hrun].
  - by exists bd.
  - destruct IH as (bd2 & Hb2 & Hl2 & Hr2).
    rewrite zig_ma_device_start_eq in Hrun.
    destruct (ma_device_start device (mem s2) (env s2)) as [[[r m] w]|] eqn:Hcall;
      [| done].
    inversion Hrun; subst u s3. cbn [mem].
    destruct (decide (device = h)) as [->|Hd].
    + destruct (Hkeep _ _ _ _ _ _ _ Hcall Hb2 Hl2) as (b' & Hb' & Hl' & Hr').
      exists b'. split; [done |]. split; [done | congruence].
    + destruct (Hst _ _ _ _ _ _ Hcall) as (Hother & _).
      exists bd2. by rewrite Hother.
  - apply zig_ma_device_get_sample_rate_state in Hrun. by subst s3.
  - destruct IH as (bd2 & Hb2 & Hl2 & Hr2).
    destruct (zig_ma_device_init_inv A config s2 h' s3 Hmalloc Hinit Hrun)
      as [Hnull Hnew].
    exists bd2. split; [| done].
    destruct (decide (h' = NULL)) as [Hh|Hh].
    + by rewrite (Hnull Hh).
    + destruct (Hnew Hh) as (Hfresh & _ & Hframe & _).
      rewrite Hframe; [done | congruence].
  - destruct IH as (bd2 & Hb2 & Hl2 & Hr2).
    destruct (decide (device = NULL)) as [->|Hd].
    + cbv in Hrun. inversion Hrun; subst s3. by exists bd2.
    + apply zig_ma_device_uninit_inv in Hrun
        as (m1 & w1 & bytes & Hcall & _ & ->); [| done].
      destruct (Hun _ _ _ _ _ Hcall) as (Hother & _).
      exists bd2. cbn [mem]. rewrite lookup_delete_ne by done.
      by rewrite Hother.
Qed.

(** C8: [zig_ma_device_init] leaves the caller's configuration as it was:
    whatever the call returns, a handle or null, the block [config] points
    to holds the same bytes as before; and the call does return, with the
    configuration intact, whenever [malloc] fails or [ma_device_init] is
    defined on this call. *)
Theorem zig_ma_device_init_preserves_config config (s : state) blk :
  malloc_contract ->
  ma_device_init_contract ->
  mem s !! config = Some blk ->
  (forall h s',
     zig_ma_device_init A config s = Some (h, s') ->
     mem s' !! config = Some blk)
  /\ (forall p init w1,
        malloc (sizeof_ma_device A) (mem s) (env s) = (p, init, w1) ->
        p = NULL
        \/ is_Some (ma_device_init NULL config p
                      (<[p := Block true init]> (mem s)) w1) ->
        exists h s',
          zig_ma_device_init A config s = Some (h, s')
          /\ mem s' !! config = Some blk).
Proof.
  intros Hmalloc Hinit Hcfg.
  assert (Hframe : forall h s',
             zig_ma_device_init A config s = Some (h, s') ->
             mem s' !! config = Some blk).
  { intros h s' Hrun.
    destruct (zig_ma_device_init_inv A config s h s' Hmalloc Hinit Hrun)
      as [Hnull Hnew].
    destruct (decide (h = NULL)) as [Hh|Hh].
    - by rewrite (Hnull Hh).
    - destruct (Hnew Hh) as (Hfresh & _ & Hother & _).
      rewrite Hother; [done | congruence]. }
  split; [exact Hframe |].
  intros p init w1 Hm Hdef.
  assert (Hret : exists h s', zig_ma_device_init A config s = Some (h, s')).
  { rewrite zig_ma_device_init_eq, Hm. cbv zeta.
    destruct (decide (p = NULL)) as [Hp|Hp]; [by eauto |].
    destruct Hdef as [Hdef | [[[r m2] w2] Hcall]]; [done |].
    rewrite Hcall.
    destruct (decide (r <> MA_SUCCESS A)) as [Hr|Hr]; [| by eauto].
    destruct (Hinit _ _ _ _ _ _ _ _ Hcall) as [_ Hkeep].
    destruct (Hkeep (Block true init)) as (bytes & Hb & _);
      [by rewrite lookup_insert_eq |].
    rewrite (free_heap_block p m2 bytes) by done. by eauto. }
  destruct Hret as (h & s' & Hrun). exists h, s'. eauto.
Qed.

(** C6: after a successful [zig_ma_device_init] on a configuration built by
    [zig_ma_device_config_playback] for [sample_rate], as long as the handle
    is live - through starts, reads, and the creation and teardown of other
    devices - [zig_ma_device_get_sample_rate] returns the [sampleRate]
    member of the device record; by the engine's contract that is the rate
    negotiated with the backend, which is positive and is [sample_rate]
    itself when the backend honours the request exactly. *)
Theorem zig_ma_device_get_sample_rate_negotiated
    (negotiated : world -> Z -> Z) config heap
    (result : list byte) (sample_rate callback user_data : Z)
    (s : state) h (s1 : state) :
  abi_ok A = true ->
  config_init_contract A ->
  malloc_contract ->
  ma_device_init_contract ->
  ma_device_init_negotiates A negotiated ->
  ma_device_start_contract ->
  ma_device_start_keeps_rate A ->
  ma_device_uninit_contract ->
  0 <= sample_rate < 2 ^ 32 ->
  mem s !! config
  = Some (Block heap
            (zig_ma_device_config_playback A result sample_rate callback user_data)) ->
  zig_ma_device_init A config s = Some (h, s1) ->
  h <> NULL ->
  exists bd,
    mem s1 !! h = Some bd
    /\ let rate := get_u32 A (blk_bytes bd) (offsetof_device_sampleRate A) in
       (forall s2 : state,
          still_live A h s1 s2 ->
          zig_ma_device_get_sample_rate A h s2 = Some (rate, s2))
       /\ (forall s2 : state,
             mem s2 !! h = Some bd ->
             zig_ma_device_get_sample_rate A h s2 = Some (rate, s2))
       /\ rate = negotiated (env s1) sample_rate
       /\ 0 < rate
       /\ (negotiated (env s1) sample_rate = sample_rate -> rate = sample_rate).
Proof.
  intros Hok Hcinit Hmalloc Hinit Hneg Hst Hkeep Hun Hsr Hcfg Hrun Hh.
  pose proof Hrun as Hrun0.
  rewrite zig_ma_device_init_eq in Hrun.
  destruct (malloc (sizeof_ma_device A) (mem s) (env s)) as [[p init] w1] eqn:Hm.
  cbv zeta in Hrun.
  destruct (decide (p = NULL)) as [Hp|Hp]; [by inversion Hrun |].
  destruct (Hmalloc _ _ _ _ _ _ Hm Hp) as [Hfresh _].
  assert (Hne : config <> p) by congruence.
  destruct (ma_device_init NULL config p _ w1) as [[[r m2] w2]|] eqn:Hcall; [| done].
  destruct (decide (r <> MA_SUCCESS A)) as [Hr|Hr].
  { destruct (free p m2); by inversion Hrun. }
  inversion Hrun; subst h s1. clear Hrun.
  assert (r = MA_SUCCESS A) as -> by (destruct (decide (r = MA_SUCCESS A)); tauto).
  destruct (Hneg _ _ _ _ _ _ _ Hcall
              ltac:(by rewrite lookup_insert_ne)) as (bd & Hbd & Hlen & Hrate & Hpos).
  cbn [blk_bytes] in Hrate, Hpos.
  rewrite (cfg_sampleRate_playback A) in Hrate, Hpos by done.
  exists bd. cbn [mem env]. split; [done |]. cbv zeta.
  split.
  { intros s2 Hlive.
    destruct (still_live_keeps_rate p _ s2 bd Hmalloc Hinit Hst Hkeep Hun Hlive)
      as (bd2 & Hb2 & Hl2 & Hr2); [done | done |].
    rewrite <- Hr2. by apply zig_ma_device_get_sample_rate_live. }
  split; [intros s2 Hs2; by apply zig_ma_device_get_sample_rate_live |].
  split; [done |]. split; [lia | congruence].
Qed.

End InitAndRate.

Lemma zig_ma_device_init_preserves_config_witness :
  exists h s',
    zig_ma_device_init (P := sim_platform example_abi) example_abi 4096
      (example_state world_no_device) = Some (h, s')
    /\ mem s' !! 4096 = Some (Block false example_blob).
Proof.
  destruct (zig_ma_device_init_preserves_config example_abi
              (P := sim_platform example_abi) 4096
              (example_state world_no_device) (Block false example_blob))
    as [_ Hreturns].
  - apply sim_malloc_contract.
  - apply sim_init_contract.
  - vm_compute. reflexivity.
  - apply (Hreturns 65536 (replicate 24 xcd) (SimWorld 65560 false 44100 false)).
    + vm_compute. reflexivity.
    + right.
      exists (sim_error example_abi,
              <[65536 := Block true (replicate 24 xcd)]>
                (mem (example_state world_no_device)),
              SimWorld 65560 false 44100 false).
      vm_compute. reflexivity.
Defined.

(** The handle 65536 is still live once its device is started, and once a
    second device exists. *)
Example still_live_started :
  still_live example_abi 65536 (device_state world_after_init) started_state.
Proof.
  apply (live_start example_abi 65536 _ (device_state world_after_init) 65536 tt).
  - apply live_now.
  - vm_compute. reflexivity.
Qed.

Example still_live_two_devices :
  still_live example_abi 65536 (device_state world_after_init) two_devices_state.
Proof.
  apply (live_init example_abi 65536 _ (device_state world_after_init) 4096 65560).
  - apply live_now.
  - vm_compute. reflexivity.
Qed.

Lemma zig_ma_device_get_sample_rate_negotiated_witness :
  zig_ma_device_get_sample_rate (P := sim_platform example_abi) example_abi
    65536 started_state = Some (48000, started_state)
  /\ zig_ma_device_get_sample_rate (P := sim_platform example_abi) example_abi
       65536 two_devices_state = Some (48000, two_devices_state).
Proof.
  destruct (zig_ma_device_get_sample_rate_negotiated example_abi
              (P := sim_platform example_abi) sim_negotiated 4096 false
              junk512 48000 4198400 8392704 (example_state world_ok)
              65536 (device_state world_after_init))
    as (bd & Hbd & Hlive & _).
  - reflexivity.
  - apply sim_config_init_contract. reflexivity.
  - apply sim_malloc_contract.
  - apply sim_init_contract.
  - apply sim_init_negotiates.
  - apply sim_start_contract.
  - apply sim_start_keeps_rate.
  - apply (sim_uninit_contract example_abi).
  - lia.
  - vm_compute. reflexivity.
  - vm_compute. reflexivity.
  - done.
  - assert (bd = Block true example_device) as ->.
    { vm_compute in Hbd. injection Hbd as <-. vm_compute. reflexivity. }
    split.
    + exact (Hlive started_state still_live_started).
    + exact (Hlive two_devices_state still_live_two_devices).
Defined.
